(** * The [app package] command: from a manifest to a CloudFormation stack

    A shallow embedding of [internal/pkg/cli/app_package.go] (the command
    [archer app package]) and of the load-balanced Fargate stack
    configuration of package [cloudformation] that it drives, followed by
    the properties of the two that the specification states.

    Go strings are byte sequences: they are modelled by [string] (a list of
    8-bit [ascii]), [len] by [String.length].  Go's [int] is modelled by
    [Z].  A value of interface type is modelled by an inductive type with
    one constructor per dynamic type the program distinguishes.  Calls to
    collaborators (workspace, environment store, file system, writers,
    prompt, git) are logged in a trace, and their outcomes are given by a
    [World] that may answer differently as the trace grows. *)

From Stdlib Require Import ZArith Ascii String DecimalString Lia.
From stdpp Require Import base strings gmap list.

Open Scope string_scope.

(** ** Library functions the program calls *)

(** [fmt.Sprintf], restricted to string operands.  The formats of this
    program only use the verb [%s]; [%v] prints a string the same way and
    [%%] prints a percent sign.  The clauses for a missing operand, for a
    format that ends in [%] and for surplus operands follow package [fmt].
    Flags, widths and the other verbs that are valid on strings ([%q],
    [%x], [%X], [%T]) do not occur in the program: a verb other than
    [s], [v] and [%] is printed the way [fmt] prints a verb that is wrong
    for its operand. *)
Module fmt.

Fixpoint extraOperands (a : list string) : string :=
  match a with
  | [] => ""
  | [x] => "string=" +:+ x
  | x :: rest => "string=" +:+ x +:+ ", " +:+ extraOperands rest
  end.

Definition EXTRA (a : list string) : string :=
  match a with
  | [] => ""
  | _ => "%!(EXTRA " +:+ extraOperands a +:+ ")"
  end.

Definition isPlainVerb (verb : ascii) : bool :=
  (Ascii.eqb verb "s" || Ascii.eqb verb "v")%char.

Definition printVerb (verb : ascii) (operand : option string) : string :=
  match operand with
  | None => "%!" +:+ String verb "(MISSING)"
  | Some x =>
      if isPlainVerb verb then x
      else "%!" +:+ String verb ("(string=" +:+ x +:+ ")")
  end.

Fixpoint Sprintf (format : string) (a : list string) : string :=
  match format with
  | "" => EXTRA a
  | String c rest =>
      if Ascii.eqb c "%" then
        match rest with
        | "" => "%!(NOVERB)" +:+ EXTRA a
        | String verb rest' =>
            if Ascii.eqb verb "%" then String "%" (Sprintf rest' a)
            else printVerb verb (head a) +:+ Sprintf rest' (tail a)
        end
      else String c (Sprintf rest a)
  end.

End fmt.

(** [strconv.Itoa]: the decimal text of an integer, with a leading minus
    sign when it is negative. *)
Module strconv.

Definition Itoa (i : Z) : string := NilZero.string_of_int (Z.to_int i).

End strconv.

(** Byte-indexed slicing [s[n:]] of a Go string. *)
Fixpoint sliceFrom (n : nat) (s : string) : string :=
  match n, s with
  | O, _ => s
  | S n', String _ rest => sliceFrom n' rest
  | S _, "" => ""
  end.

(** ** Errors and results *)

(** Go [error] values.  [errorString] is what [errors.New] and
    [fmt.Errorf] without [%w] build; [wrapError msg err] is what
    [fmt.Errorf] builds from a format that ends in [%w]: [msg] is the
    formatted text in front of the verb and [err] the wrapped error.
    [ErrTemplateNotFound] (package [cloudformation]) and the value
    [errNoProjectInWorkspace] (package [cli]) are declared outside the file;
    only their construction and identity matter here. *)
Inductive error : Type :=
| errorString (msg : string)
| wrapError (msg : string) (err : error)
| ErrTemplateNotFound (templateLocation : string) (parentErr : error)
| errNoProjectInWorkspace.

(** The pair [(value, error)] returned by a collaborator, whose value the
    program reads only when the error is [nil]. *)
Inductive result (A : Type) : Type :=
| Ok (a : A)
| Err (err : error).
Arguments Ok {A} a.
Arguments Err {A} err.

(** ** Data model *)

(** Package [manifest].  Modelled from the spec: the type declarations of
    the load-balanced Fargate manifest are outside the file; the fields
    are the ones the file reads (name, type, container port, routing path,
    CPU, memory, task count) and the per-environment overrides of the
    spec's data model.  A pointer to a struct is modelled by the struct. *)
Module manifest.

Record AppManifest : Type := mkAppManifest {
  Name : string;
  Type' : string
}.

Record ImageWithPort : Type := mkImageWithPort {
  Port : Z
}.

Record LBFargateConfig : Type := mkLBFargateConfig {
  Path : string;
  CPU : Z;
  Memory : Z;
  Count : Z
}.

Record LBFargateManifest : Type := mkLBFargateManifest {
  appManifest : AppManifest;
  Image : ImageWithPort;
  lbFargateConfig : LBFargateConfig;
  Environments : gmap string LBFargateConfig
}.

Section EnvConf.

(** How the fields of an override replace those of the base
    configuration is decided outside the file. *)
Variable applyOverride : LBFargateConfig -> LBFargateConfig -> LBFargateConfig.

(** Modelled from the spec: the method [EnvConf] is outside the file.
    It looks the environment name up in the overrides and, if there is
    none, the base configuration applies unchanged. *)
Definition EnvConf (m : LBFargateManifest) (envName : string) : LBFargateConfig :=
  match Environments m !! envName with
  | None => lbFargateConfig m
  | Some target => applyOverride (lbFargateConfig m) target
  end.

End EnvConf.

(** The dynamic type of a decoded manifest (interface [archer.Manifest]):
    a pointer to a load-balanced Fargate manifest, or a value of any
    other type, of which the program only prints the name with [%T]. *)
Inductive Manifest : Type :=
| IsLBFargateManifest (m : LBFargateManifest)
| OtherManifest (typeName : string).

End manifest.

(** Package [archer]: the environment record. *)
Module archer.

Record Environment : Type := mkEnvironment {
  Project : string;
  Name : string;
  Region : string;
  AccountID : string
}.

End archer.

(** Package [deploy]: the input of a stack. *)
Module deploy.

Record CreateLBFargateAppInput : Type := mkCreateLBFargateAppInput {
  App : manifest.LBFargateManifest;
  Env : archer.Environment;
  ImageTag : string
}.

End deploy.

(** ** Package [cloudformation]: the load-balanced Fargate stack *)
Module cloudformation.

Import deploy.

Definition lbFargateAppTemplatePath : string := "lb-fargate-service/cf.yml".
Definition lbFargateAppParamsPath : string := "lb-fargate-service/params.json".

Definition lbFargateParamProjectNameKey : string := "ProjectName".
Definition lbFargateParamEnvNameKey : string := "EnvName".
Definition lbFargateParamAppNameKey : string := "AppName".
Definition lbFargateParamContainerImageKey : string := "ContainerImage".
Definition lbFargateParamContainerPortKey : string := "ContainerPort".
Definition lbFargateRulePriorityKey : string := "RulePriority".
Definition lbFargateRulePathKey : string := "RulePath".
Definition lbFargateTaskCPUKey : string := "TaskCPU".
Definition lbFargateTaskMemoryKey : string := "TaskMemory".
Definition lbFargateTaskCountKey : string := "TaskCount".

(** Modelled from the spec: the registry-URL format constant
    [ecrURLFormatString] is declared outside the file; the spec's
    scenario gives the URL [123.dkr.ecr.us-east-1.amazonaws.com/...] for
    account [123] and region [us-east-1]. *)
Definition ecrURLFormatString_spec : string := "%s.dkr.ecr.%s.amazonaws.com/%s".

(** [aws.String]: a non-nil pointer to the string. *)
Definition aws_String (s : string) : option string := Some s.

(** The two fields of the SDK's [cloudformation.Parameter] and
    [cloudformation.Tag] that the file sets. *)
Record CfnParameter : Type := mkCfnParameter {
  ParameterKey : option string;
  ParameterValue : option string
}.

Record Tag : Type := mkTag {
  Key : option string;
  Value : option string
}.

(** The bundled template store, [packd.Box], through its [FindString]. *)
Record Box : Type := mkBox {
  FindString : string -> result string
}.

Record LBFargateStackConfig : Type := mkLBFargateStackConfig {
  input : CreateLBFargateAppInput;
  box : Box
}.

Record TemplateImage : Type := mkTemplateImage {
  URL : string;
  Port : Z
}.

Record lbFargateTemplateParams : Type := mklbFargateTemplateParams {
  templateInput : CreateLBFargateAppInput;
  Priority : Z;
  Image : TemplateImage
}.

(** Package [text/template]: parsing a template body, and executing a
    parsed template on the parameters, which yields the text written to
    the buffer so far and possibly an error. *)
Record Engine : Type := mkEngine {
  template : Type;
  template_Parse : string -> result template;
  template_Execute : template -> lbFargateTemplateParams -> string * option error
}.

Definition NewLBFargateStack (templates_Box : Box) (in_ : CreateLBFargateAppInput)
  : LBFargateStackConfig :=
  {| input := in_; box := templates_Box |}.

Definition StackName (c : LBFargateStackConfig) : string :=
  let maxLen := 128%nat in
  let stackName :=
    fmt.Sprintf "%s-%s-%s-app"
      [archer.Project (Env (input c)); archer.Name (Env (input c));
       manifest.Name (manifest.appManifest (App (input c)))] in
  if Nat.ltb maxLen (String.length stackName)
  then sliceFrom (String.length stackName - maxLen) stackName
  else stackName.

Section Stack.

(** Declared outside the file: the registry-URL format, the three tag
    keys, the way an override is applied, and the template engine. *)
Variable ecrURLFormatString : string.
Variables projectTagKey envTagKey appTagKey : string.
Variable applyOverride :
  manifest.LBFargateConfig -> manifest.LBFargateConfig -> manifest.LBFargateConfig.
Variable engine : Engine.

Definition imgLoc (c : LBFargateStackConfig) : string :=
  fmt.Sprintf "%s/%s/%s:%s"
    [archer.Project (Env (input c)); archer.Name (Env (input c));
     manifest.Name (manifest.appManifest (App (input c))); ImageTag (input c)].

Definition toTemplateParams (c : LBFargateStackConfig) : lbFargateTemplateParams :=
  let url :=
    fmt.Sprintf ecrURLFormatString
      [archer.AccountID (Env (input c)); archer.Region (Env (input c)); imgLoc c] in
  {| templateInput :=
       {| App :=
            {| manifest.appManifest := manifest.appManifest (App (input c));
               manifest.Image := manifest.mkImageWithPort 0;
               manifest.lbFargateConfig :=
                 manifest.EnvConf applyOverride (App (input c))
                   (archer.Name (Env (input c)));
               manifest.Environments := ∅ |};
          Env := Env (input c);
          ImageTag := "" |};
     Priority := 1;
     Image := {| URL := url; Port := manifest.Port (manifest.Image (App (input c))) |} |}.

Definition Template (c : LBFargateStackConfig) : string * option error :=
  match FindString (box c) lbFargateAppTemplatePath with
  | Err err => ("", Some (ErrTemplateNotFound lbFargateAppTemplatePath err))
  | Ok content =>
      match template_Parse engine content with
      | Err err =>
          ("", Some (wrapError
                       (fmt.Sprintf "parse CloudFormation template for %s: "
                          [manifest.Type' (manifest.appManifest (App (input c)))]) err))
      | Ok tpl =>
          match template_Execute engine tpl (toTemplateParams c) with
          | (_, Some err) =>
              ("", Some (wrapError
                           (fmt.Sprintf "execute CloudFormation template for %s: "
                              [manifest.Type' (manifest.appManifest (App (input c)))]) err))
          | (buf, None) => (buf, None)
          end
      end
  end.

Definition Parameters (c : LBFargateStackConfig) : list CfnParameter :=
  let templateParams := toTemplateParams c in
  let app := App (templateInput templateParams) in
  let env := Env (templateInput templateParams) in
  [ {| ParameterKey := aws_String lbFargateParamProjectNameKey;
       ParameterValue := aws_String (archer.Project env) |};
    {| ParameterKey := aws_String lbFargateParamEnvNameKey;
       ParameterValue := aws_String (archer.Name env) |};
    {| ParameterKey := aws_String lbFargateParamAppNameKey;
       ParameterValue := aws_String (manifest.Name (manifest.appManifest app)) |};
    {| ParameterKey := aws_String lbFargateParamContainerImageKey;
       ParameterValue := aws_String (URL (Image templateParams)) |};
    {| ParameterKey := aws_String lbFargateParamContainerPortKey;
       ParameterValue := aws_String (strconv.Itoa (Port (Image templateParams))) |};
    {| ParameterKey := aws_String lbFargateRulePriorityKey;
       ParameterValue := aws_String (strconv.Itoa (Priority templateParams)) |};
    {| ParameterKey := aws_String lbFargateRulePathKey;
       ParameterValue := aws_String (manifest.Path (manifest.lbFargateConfig app)) |};
    {| ParameterKey := aws_String lbFargateTaskCPUKey;
       ParameterValue := aws_String (strconv.Itoa (manifest.CPU (manifest.lbFargateConfig app))) |};
    {| ParameterKey := aws_String lbFargateTaskMemoryKey;
       ParameterValue := aws_String (strconv.Itoa (manifest.Memory (manifest.lbFargateConfig app))) |};
    {| ParameterKey := aws_String lbFargateTaskCountKey;
       ParameterValue := aws_String (strconv.Itoa (manifest.Count (manifest.lbFargateConfig app))) |} ].

Definition SerializedParameters (c : LBFargateStackConfig) : string * option error :=
  match FindString (box c) lbFargateAppParamsPath with
  | Err err => ("", Some (ErrTemplateNotFound lbFargateAppParamsPath err))
  | Ok content =>
      match template_Parse engine content with
      | Err err =>
          ("", Some (wrapError
                       (fmt.Sprintf "parse stack configuration for %s: "
                          [manifest.Type' (manifest.appManifest (App (input c)))]) err))
      | Ok tpl =>
          match template_Execute engine tpl (toTemplateParams c) with
          | (_, Some err) =>
              ("", Some (wrapError
                           (fmt.Sprintf "execute stack configuration for %s: "
                              [manifest.Type' (manifest.appManifest (App (input c)))]) err))
          | (buf, None) => (buf, None)
          end
      end
  end.

Definition Tags (c : LBFargateStackConfig) : list Tag :=
  [ {| Key := aws_String projectTagKey;
       Value := aws_String (archer.Project (Env (input c))) |};
    {| Key := aws_String envTagKey;
       Value := aws_String (archer.Name (Env (input c))) |};
    {| Key := aws_String appTagKey;
       Value := aws_String (manifest.Name (manifest.appManifest (App (input c)))) |} ].

End Stack.

End cloudformation.

(** ** Package [path/filepath] and [strings.Join]

    [filepath.Clean] and [filepath.Join] as they behave where the
    separator is the slash: [Clean] is given by what its loop computes,
    element by element. *)
Module strings.

Fixpoint Join (elems : list string) (sep : string) : string :=
  match elems with
  | [] => ""
  | [e] => e
  | e :: rest => e +:+ sep +:+ Join rest sep
  end.

End strings.

Module filepath.

(** The elements of a path: the texts between its separators. *)
Fixpoint elements (path : string) : list string :=
  match path with
  | "" => [""]
  | String c rest =>
      if Ascii.eqb c "/" then "" :: elements rest
      else match elements rest with
           | [] => [String c ""]
           | e :: es => String c e :: es
           end
  end.

Definition isRooted (path : string) : bool :=
  match path with
  | String c _ => Ascii.eqb c "/"
  | "" => false
  end.

(** One round of the loop of [Clean], on the elements written so far
    (last one first): an empty element and [.] are skipped, [..] removes
    the last element if there is one to remove, is dropped at the root,
    and is kept in front of a relative path. *)
Definition cleanStep (rooted : bool) (out : list string) (elem : string) : list string :=
  if String.eqb elem "" || String.eqb elem "." then out
  else if String.eqb elem ".." then
    match out with
    | [] => if rooted then [] else [".."]
    | last :: out' => if String.eqb last ".." then ".." :: out else out'
    end
  else elem :: out.

Definition cleanElements (path : string) : list string :=
  rev (fold_left (cleanStep (isRooted path)) (elements path) []).

(** The text of a cleaned path: its elements joined by the separator,
    behind the root if there is one; [.] stands for no element at all. *)
Definition fromElements (rooted : bool) (out : list string) : string :=
  if rooted then String "/" (strings.Join out "/")
  else match out with
       | [] => "."
       | _ => strings.Join out "/"
       end.

Definition Clean (path : string) : string :=
  match path with
  | "" => "."
  | _ => fromElements (isRooted path) (cleanElements path)
  end.

(** [Join] ignores leading empty elements and cleans the result. *)
Fixpoint Join (elem : list string) : string :=
  match elem with
  | [] => ""
  | e :: rest =>
      if String.eqb e "" then Join rest else Clean (strings.Join elem "/")
  end.

End filepath.

(** ** Package [cli]: the command *)
Module cli.

Definition appPackageAppNamePrompt : string :=
  "Which application would you like to generate a CloudFormation template for?".
Definition appPackageEnvNamePrompt : string :=
  "Which environment would you like to create this stack for?".

(** A file returned by the file system, known by its identity. *)
Inductive File : Type :=
| FileHandle (id : N).

(** The dynamic values of [io.Writer] the command meets: [os.Stdout],
    [ioutil.Discard], a file, or a writer handed in by a caller. *)
Inductive Writer : Type :=
| Stdout
| Discard
| FileWriter (f : File)
| OtherWriter (id : N).

(** A call to a collaborator, with its arguments and its outcome. *)
Inductive event : Type :=
| CallGitRevParse (r : result string)
| CallWorkspaceNew (r : option error)
| CallNewStore (r : option error)
| CallAppNames (r : result (list string))
| CallReadManifestFile (path : string) (r : result string)
| CallGetEnvironment (project env : string) (r : result archer.Environment)
| CallListEnvironments (project : string) (r : result (list archer.Environment))
| CallSelectOne (message help : string) (options : list string) (r : result string)
| CallMkdirAll (path : string) (perm : Z) (r : option error)
| CallCreate (path : string) (r : result File)
| CallWrite (w : Writer) (p : string) (r : Z * option error).

Record globalOpts : Type := mkGlobalOpts {
  projectName : string
}.

(** Everything the command reaches outside the file.  The outcome of a
    call may depend on the calls made before it (the trace).  The
    interfaces that [PackageAppOpts] holds ([ws], [envStore], [fs],
    [prompt]) are the world's; the command sets them before it runs any
    method, and a [nil] interface is not modelled. *)
Record World : Type := mkWorld {
  (* package-level declarations outside the file *)
  ecrURLFormatString : string;
  projectTagKey : string;
  envTagKey : string;
  appTagKey : string;
  applyOverride :
    manifest.LBFargateConfig -> manifest.LBFargateConfig -> manifest.LBFargateConfig;
  UnmarshalApp : string -> result manifest.Manifest;
  templates_Box : cloudformation.Box;
  newGlobalOpts : globalOpts;
  viper_projectFlag : string;
  (* libraries *)
  engine : cloudformation.Engine;
  TrimSpace : string -> string;
  git_rev_parse : list event -> result string;
  (* collaborators *)
  workspace_New : list event -> option error;
  ssm_NewStore : list event -> option error;
  ws_AppNames : list event -> result (list string);
  ws_ManifestFileName : string -> string;
  ws_ReadManifestFile : list event -> string -> result string;
  envStore_GetEnvironment : list event -> string -> string -> result archer.Environment;
  envStore_ListEnvironments : list event -> string -> result (list archer.Environment);
  prompt_SelectOne : list event -> string -> string -> list string -> result string;
  fs_MkdirAll : list event -> string -> Z -> option error;
  fs_Create : list event -> string -> result File;
  writer_Write : list event -> Writer -> string -> Z * option error
}.

Record PackageAppOpts : Type := mkPackageAppOpts {
  AppName : string;
  EnvName : string;
  Tag : string;
  OutputDir : string;
  templateWriter : Writer;
  paramsWriter : Writer;
  global : globalOpts
}.

(** The state a method runs in: the receiver, which the methods update
    in place, and the calls made so far, oldest first. *)
Record State : Type := mkState {
  opts : PackageAppOpts;
  trace : list event
}.

Definition M (A : Type) : Type := State -> A * State.

Definition ret {A : Type} (a : A) : M A := fun s => (a, s).

Definition bind {A B : Type} (m : M A) (k : A -> M B) : M B :=
  fun s => let (a, s') := m s in k a s'.

Notation "x <- m ;; k" := (bind m (fun x => k))
  (at level 20, m at level 99, k at level 200, only parsing).
Notation "' pat <- m ;; k" := (bind m (fun x => match x with pat => k end))
  (at level 20, pat pattern, m at level 99, k at level 200, only parsing).

(** [if err := m; err != nil { return err }], then [k]. *)
Definition orReturn (m : M (option error)) (k : M (option error)) : M (option error) :=
  err <- m ;;
  match err with
  | Some err => ret (Some err)
  | None => k
  end.
Notation "'check' m ;; k" := (orReturn m k)
  (at level 20, m at level 99, k at level 200, only parsing).

Definition getOpts : M PackageAppOpts := fun s => (opts s, s).

Definition setOpts (f : PackageAppOpts -> PackageAppOpts) : M unit :=
  fun s => (tt, {| opts := f (opts s); trace := trace s |}).

(** A call: the world answers from the trace, and the call is logged. *)
Definition call {A : Type} (answer : list event -> A) (log : A -> event) : M A :=
  fun s =>
    let r := answer (trace s) in
    (r, {| opts := opts s; trace := trace s ++ [log r] |}).

Definition setAppName (v : string) (o : PackageAppOpts) : PackageAppOpts :=
  {| AppName := v; EnvName := EnvName o; Tag := Tag o; OutputDir := OutputDir o;
     templateWriter := templateWriter o; paramsWriter := paramsWriter o;
     global := global o |}.

Definition setEnvName (v : string) (o : PackageAppOpts) : PackageAppOpts :=
  {| AppName := AppName o; EnvName := v; Tag := Tag o; OutputDir := OutputDir o;
     templateWriter := templateWriter o; paramsWriter := paramsWriter o;
     global := global o |}.

Definition setTemplateWriter (w : Writer) (o : PackageAppOpts) : PackageAppOpts :=
  {| AppName := AppName o; EnvName := EnvName o; Tag := Tag o; OutputDir := OutputDir o;
     templateWriter := w; paramsWriter := paramsWriter o;
     global := global o |}.

Definition setParamsWriter (w : Writer) (o : PackageAppOpts) : PackageAppOpts :=
  {| AppName := AppName o; EnvName := EnvName o; Tag := Tag o; OutputDir := OutputDir o;
     templateWriter := templateWriter o; paramsWriter := w;
     global := global o |}.

Fixpoint contains (s : string) (items : list string) : bool :=
  match items with
  | [] => false
  | item :: rest => if String.eqb s item then true else contains s rest
  end.

Section Command.

Variable W : World.

(** [Write] on a writer: [ioutil.Discard] accepts everything; the other
    writers answer as the world says. *)
Definition Write (w : Writer) (p : string) : M (Z * option error) :=
  call (fun tr =>
          match w with
          | Discard => (Z.of_nat (String.length p), None)
          | _ => writer_Write W tr w p
          end)
       (CallWrite w p).

Definition NewPackageAppOpts : M PackageAppOpts :=
  r <- call (git_rev_parse W) CallGitRevParse ;;
  match r with
  | Err _ =>
      ret {| AppName := ""; EnvName := ""; Tag := "latest"; OutputDir := "";
             templateWriter := Stdout; paramsWriter := Discard;
             global := newGlobalOpts W |}
  | Ok commitID =>
      ret {| AppName := ""; EnvName := "";
             Tag := fmt.Sprintf "manual-%s" [TrimSpace W commitID];
             OutputDir := "";
             templateWriter := Stdout; paramsWriter := Discard;
             global := newGlobalOpts W |}
  end.

Definition listAppNames : M (result (list string)) :=
  r <- call (ws_AppNames W) CallAppNames ;;
  match r with
  | Err err => ret (Err (wrapError "list applications in workspace: " err))
  | Ok names => ret (Ok names)
  end.

Definition listEnvNames : M (result (list string)) :=
  let project := viper_projectFlag W in
  r <- call (fun tr => envStore_ListEnvironments W tr project)
            (CallListEnvironments project) ;;
  match r with
  | Err err =>
      ret (Err (wrapError
                  (fmt.Sprintf "list environments for project %s: " [project]) err))
  | Ok envs => ret (Ok (map archer.Name envs))
  end.

Definition GetEnvironment (project env : string) : M (result archer.Environment) :=
  call (fun tr => envStore_GetEnvironment W tr project env)
       (CallGetEnvironment project env).

Definition SelectOne (message help : string) (options : list string) : M (result string) :=
  call (fun tr => prompt_SelectOne W tr message help options)
       (CallSelectOne message help options).

Definition Ask : M (option error) :=
  o <- getOpts ;;
  check (if String.eqb (AppName o) "" then
           r <- listAppNames ;;
           match r with
           | Err err => ret (Some err)
           | Ok names =>
               if Nat.eqb (length names) 0 then
                 ret (Some (errorString
                   "there are no applications in the workspace, run `archer init` first"))
               else
                 r <- SelectOne appPackageAppNamePrompt "" names ;;
                 match r with
                 | Err err => ret (Some (wrapError "prompt application name: " err))
                 | Ok app => _ <- setOpts (setAppName app) ;; ret None
                 end
           end
         else ret None) ;;
  o <- getOpts ;;
  check (if String.eqb (EnvName o) "" then
           r <- listEnvNames ;;
           match r with
           | Err err => ret (Some err)
           | Ok names =>
               r <- SelectOne appPackageEnvNamePrompt "" names ;;
               match r with
               | Err err => ret (Some (wrapError "prompt environment name: " err))
               | Ok env => _ <- setOpts (setEnvName env) ;; ret None
               end
           end
         else ret None) ;;
  ret None.

Definition Validate : M (option error) :=
  o <- getOpts ;;
  if String.eqb (projectName (global o)) "" then ret (Some errNoProjectInWorkspace)
  else
    check (if negb (String.eqb (AppName o) "") then
             r <- listAppNames ;;
             match r with
             | Err err => ret (Some err)
             | Ok names =>
                 if negb (contains (AppName o) names) then
                   ret (Some (errorString
                     (fmt.Sprintf "application '%s' does not exist in the workspace"
                        [AppName o])))
                 else ret None
             end
           else ret None) ;;
    check (if negb (String.eqb (EnvName o) "") then
             r <- GetEnvironment (projectName (global o)) (EnvName o) ;;
             match r with
             | Err err => ret (Some err)
             | Ok _ => ret None
             end
           else ret None) ;;
    ret None.

(** The type switch on the decoded manifest.  In the default branch the
    verb [%T] prints the name of the dynamic type of the manifest, which is
    the text that [OtherManifest] carries. *)
Definition getTemplates (env : archer.Environment) : M (string * string * option error) :=
  o <- getOpts ;;
  let path := ws_ManifestFileName W (AppName o) in
  r <- call (fun tr => ws_ReadManifestFile W tr path) (CallReadManifestFile path) ;;
  match r with
  | Err err => ret ("", "", Some err)
  | Ok raw =>
      match UnmarshalApp W raw with
      | Err err => ret ("", "", Some err)
      | Ok (manifest.IsLBFargateManifest mft) =>
          let stack :=
            cloudformation.NewLBFargateStack (templates_Box W)
              {| deploy.App := mft; deploy.Env := env; deploy.ImageTag := Tag o |} in
          match cloudformation.Template (ecrURLFormatString W) (applyOverride W)
                  (engine W) stack with
          | (_, Some err) => ret ("", "", Some err)
          | (tpl, None) =>
              let '(params, err) :=
                cloudformation.SerializedParameters (ecrURLFormatString W)
                  (applyOverride W) (engine W) stack in
              ret (tpl, params, err)
          end
      | Ok (manifest.OtherManifest t) =>
          ret ("", "",
               Some (errorString
                       (fmt.Sprintf "create CloudFormation template for manifest of type %s"
                          [t])))
      end
  end.

(** The mode [0755] of the directory is 493 in decimal. *)
Definition setFileWriters : M (option error) :=
  o <- getOpts ;;
  err <- call (fun tr => fs_MkdirAll W tr (OutputDir o) 493) (CallMkdirAll (OutputDir o) 493) ;;
  match err with
  | Some err =>
      ret (Some (wrapError (fmt.Sprintf "create directory %s: " [OutputDir o]) err))
  | None =>
      let templatePath :=
        filepath.Join [OutputDir o; fmt.Sprintf "%s.stack.yml" [AppName o]] in
      r <- call (fun tr => fs_Create W tr templatePath) (CallCreate templatePath) ;;
      match r with
      | Err err =>
          ret (Some (wrapError (fmt.Sprintf "create file %s: " [templatePath]) err))
      | Ok templateFile =>
          _ <- setOpts (setTemplateWriter (FileWriter templateFile)) ;;
          let paramsPath :=
            filepath.Join
              [OutputDir o; fmt.Sprintf "%s-%s.params.json" [AppName o; EnvName o]] in
          r <- call (fun tr => fs_Create W tr paramsPath) (CallCreate paramsPath) ;;
          match r with
          | Err err =>
              ret (Some (wrapError (fmt.Sprintf "create file %s: " [paramsPath]) err))
          | Ok paramsFile =>
              _ <- setOpts (setParamsWriter (FileWriter paramsFile)) ;;
              ret None
          end
      end
  end.

Definition Execute : M (option error) :=
  o <- getOpts ;;
  r <- GetEnvironment (projectName (global o)) (EnvName o) ;;
  match r with
  | Err err => ret (Some err)
  | Ok env =>
      check (if negb (String.eqb (OutputDir o) "") then setFileWriters else ret None) ;;
      '(tpl, params, err) <- getTemplates env ;;
      match err with
      | Some err => ret (Some err)
      | None =>
          o <- getOpts ;;
          '(_, err) <- Write (templateWriter o) tpl ;;
          match err with
          | Some err => ret (Some err)
          | None =>
              '(_, err) <- Write (paramsWriter o) params ;;
              ret err
          end
      end
  end.

(** The flags given on the command line; a flag that is absent leaves
    the field as the constructor set it. *)
Record Flags : Type := mkFlags {
  flag_name : option string;
  flag_env : option string;
  flag_tag : option string;
  flag_output_dir : option string
}.

Definition parseFlags (flags : Flags) (o : PackageAppOpts) : PackageAppOpts :=
  {| AppName := default (AppName o) (flag_name flags);
     EnvName := default (EnvName o) (flag_env flags);
     Tag := default (Tag o) (flag_tag flags);
     OutputDir := default (OutputDir o) (flag_output_dir flags);
     templateWriter := templateWriter o; paramsWriter := paramsWriter o;
     global := global o |}.

Definition PreRunE : M (option error) :=
  err <- call (workspace_New W) CallWorkspaceNew ;;
  match err with
  | Some err => ret (Some (wrapError "new workspace: " err))
  | None =>
      err <- call (ssm_NewStore W) CallNewStore ;;
      match err with
      | Some err =>
          ret (Some (wrapError "couldn't connect to application datastore: " err))
      | None => Validate
      end
  end.

Definition RunE : M (option error) :=
  check Ask ;;
  check Validate ;;
  Execute.

(** [BuildAppPackageCmd] followed by one run of the command it builds:
    the options are constructed, the flags are parsed into them, and
    [PreRunE] runs before [RunE], which is skipped if [PreRunE] fails. *)
Definition BuildAppPackageCmd (flags : Flags) : M (option error) :=
  o <- NewPackageAppOpts ;;
  _ <- setOpts (fun _ => parseFlags flags o) ;;
  check PreRunE ;;
  RunE.

End Command.

End cli.

(** ** The scenario of the specification

    Application [frontend] (port 80, CPU 256, memory 512, one task),
    environment [test] of project [demo] in account [123], region
    [us-east-1], image tag [latest], and a world in which every
    collaborator succeeds.  The template engine of the scenario copies the
    template body and appends the image URL; the body [{{.Missing}}] fails
    after some text has been written. *)
Module scenario.

Definition frontend : manifest.LBFargateManifest :=
  {| manifest.appManifest :=
       {| manifest.Name := "frontend"; manifest.Type' := "Load Balanced Web App" |};
     manifest.Image := {| manifest.Port := 80 |};
     manifest.lbFargateConfig :=
       {| manifest.Path := "*"; manifest.CPU := 256; manifest.Memory := 512;
          manifest.Count := 1 |};
     manifest.Environments := ∅ |}.

Definition test : archer.Environment :=
  {| archer.Project := "demo"; archer.Name := "test";
     archer.Region := "us-east-1"; archer.AccountID := "123" |}.

Definition box : cloudformation.Box :=
  {| cloudformation.FindString := fun path =>
       if String.eqb path cloudformation.lbFargateAppTemplatePath then Ok "Resources: "
       else if String.eqb path cloudformation.lbFargateAppParamsPath then Ok "Parameters: "
       else Err (errorString "file does not exist") |}.

Definition brokenBox : cloudformation.Box :=
  {| cloudformation.FindString := fun _ => Ok "{{.Missing}}" |}.

Definition engine : cloudformation.Engine :=
  {| cloudformation.template := string;
     cloudformation.template_Parse := fun content => Ok content;
     cloudformation.template_Execute := fun tpl params =>
       if String.eqb tpl "{{.Missing}}"
       then ("partial output", Some (errorString "can't evaluate field Missing"))
       else (tpl +:+ cloudformation.URL (cloudformation.Image params), None) |}.

Definition stack : cloudformation.LBFargateStackConfig :=
  cloudformation.NewLBFargateStack box
    {| deploy.App := frontend; deploy.Env := test; deploy.ImageTag := "latest" |}.

Definition brokenStack : cloudformation.LBFargateStackConfig :=
  cloudformation.NewLBFargateStack brokenBox
    {| deploy.App := frontend; deploy.Env := test; deploy.ImageTag := "latest" |}.

Definition overrideAll (base target : manifest.LBFargateConfig) : manifest.LBFargateConfig :=
  target.

(** A world in which every collaborator succeeds, given the decoder of
    manifests, the environment store and the template store. *)
Definition worldWith
    (decode : string -> result manifest.Manifest)
    (store : list cli.event -> string -> string -> result archer.Environment)
    (templates : cloudformation.Box) : cli.World :=
  {| cli.ecrURLFormatString := cloudformation.ecrURLFormatString_spec;
     cli.projectTagKey := "ecs-project";
     cli.envTagKey := "ecs-environment";
     cli.appTagKey := "ecs-application";
     cli.applyOverride := overrideAll;
     cli.UnmarshalApp := decode;
     cli.templates_Box := templates;
     cli.newGlobalOpts := {| cli.projectName := "demo" |};
     cli.viper_projectFlag := "demo";
     cli.engine := engine;
     cli.TrimSpace := fun s => s;
     cli.git_rev_parse := fun _ => Err (errorString "exit status 128");
     cli.workspace_New := fun _ => None;
     cli.ssm_NewStore := fun _ => None;
     cli.ws_AppNames := fun _ => Ok ["backend"; "frontend"];
     cli.ws_ManifestFileName := fun app => app +:+ "-app.yml";
     cli.ws_ReadManifestFile := fun _ _ => Ok "name: frontend";
     cli.envStore_GetEnvironment := store;
     cli.envStore_ListEnvironments := fun _ _ => Ok [test];
     cli.prompt_SelectOne := fun _ _ _ options => Ok (default "" (head options));
     cli.fs_MkdirAll := fun _ _ _ => None;
     cli.fs_Create := fun tr _ => Ok (cli.FileHandle (N.of_nat (length tr)));
     cli.writer_Write := fun _ _ p => (Z.of_nat (String.length p), None) |}.

Definition world : cli.World :=
  worldWith (fun _ => Ok (manifest.IsLBFargateManifest frontend))
    (fun _ _ _ => Ok test) box.

(** The same world with a manifest of a type the command does not know. *)
Definition unsupportedWorld : cli.World :=
  worldWith (fun _ => Ok (manifest.OtherManifest "*manifest.BackendManifest"))
    (fun _ _ _ => Ok test) box.

(** The same world with a store that does not know the environment. *)
Definition noEnvironmentWorld : cli.World :=
  worldWith (fun _ => Ok (manifest.IsLBFargateManifest frontend))
    (fun _ _ _ => Err (errorString "environment not found")) box.

Definition flags : cli.Flags :=
  {| cli.flag_name := Some "frontend"; cli.flag_env := Some "test";
     cli.flag_tag := None; cli.flag_output_dir := Some "./out" |}.

Definition emptyOpts : cli.PackageAppOpts :=
  {| cli.AppName := ""; cli.EnvName := ""; cli.Tag := ""; cli.OutputDir := "";
     cli.templateWriter := cli.Stdout; cli.paramsWriter := cli.Discard;
     cli.global := {| cli.projectName := "" |} |}.

Definition start : cli.State :=
  {| cli.opts := emptyOpts; cli.trace := [] |}.

(** The options of the scenario once the flags are parsed. *)
Definition options : cli.PackageAppOpts :=
  {| cli.AppName := "frontend"; cli.EnvName := "test"; cli.Tag := "latest";
     cli.OutputDir := "./out";
     cli.templateWriter := cli.Stdout; cli.paramsWriter := cli.Discard;
     cli.global := {| cli.projectName := "demo" |} |}.

(** The state in which the methods of the scenario start. *)
Definition ready : cli.State :=
  {| cli.opts := options; cli.trace := [] |}.

(** The same state outside any project, and with an application that
    the workspace does not list. *)
Definition outsideProject : cli.State :=
  {| cli.opts :=
       {| cli.AppName := "frontend"; cli.EnvName := "test"; cli.Tag := "latest";
          cli.OutputDir := "./out";
          cli.templateWriter := cli.Stdout; cli.paramsWriter := cli.Discard;
          cli.global := {| cli.projectName := "" |} |};
     cli.trace := [] |}.

Definition unlistedApplication : cli.State :=
  {| cli.opts := cli.setAppName "worker" options; cli.trace := [] |}.

End scenario.

(** ** Vocabulary of the properties *)

(** The name of a stack as it is naturally composed, before any bound is
    applied: [{project}-{environment}-{appName}-app]. *)
Definition naturalStackName (c : cloudformation.LBFargateStackConfig) : string :=
  archer.Project (deploy.Env (cloudformation.input c)) +:+ "-"
  +:+ archer.Name (deploy.Env (cloudformation.input c)) +:+ "-"
  +:+ manifest.Name (manifest.appManifest (deploy.App (cloudformation.input c)))
  +:+ "-app".

(** The image location [{project}/{environment}/{appName}:{tag}]. *)
Definition imageLocation (c : cloudformation.LBFargateStackConfig) : string :=
  archer.Project (deploy.Env (cloudformation.input c)) +:+ "/"
  +:+ archer.Name (deploy.Env (cloudformation.input c)) +:+ "/"
  +:+ manifest.Name (manifest.appManifest (deploy.App (cloudformation.input c))) +:+ ":"
  +:+ deploy.ImageTag (cloudformation.input c).

(** The error of [Validate] for an application that the workspace does not
    list. *)
Definition unknownApplication (name : string) : error :=
  errorString ("application '" +:+ name +:+ "' does not exist in the workspace").

(** The error of [getTemplates] for a manifest of an unsupported type. *)
Definition unsupportedManifest (typeName : string) : error :=
  errorString ("create CloudFormation template for manifest of type " +:+ typeName).

(** Observations of a trace: the writes, the calls to the file system, the
    paths of the files that were created, and the number of lookups of an
    environment in the store. *)
Definition isWrite (e : cli.event) : bool :=
  match e with
  | cli.CallWrite _ _ _ => true
  | _ => false
  end.

Definition isFsCall (e : cli.event) : bool :=
  match e with
  | cli.CallMkdirAll _ _ _ | cli.CallCreate _ _ => true
  | _ => false
  end.

Definition isLookup (project env : string) (e : cli.event) : bool :=
  match e with
  | cli.CallGetEnvironment p n _ => String.eqb p project && String.eqb n env
  | _ => false
  end.

Definition writes (tr : list cli.event) : list cli.event := List.filter isWrite tr.

Definition fsCalls (tr : list cli.event) : list cli.event := List.filter isFsCall tr.

Fixpoint createdFiles (tr : list cli.event) : list string :=
  match tr with
  | [] => []
  | cli.CallCreate path (Ok _) :: rest => path :: createdFiles rest
  | _ :: rest => createdFiles rest
  end.

Definition lookups (project env : string) (tr : list cli.event) : nat :=
  length (List.filter (isLookup project env) tr).

(** The paths of the two files of an output directory:
    [{dir}/{app}.stack.yml] and [{dir}/{app}-{env}.params.json]. *)
Definition templatePath (o : cli.PackageAppOpts) : string :=
  filepath.Join [cli.OutputDir o; cli.AppName o +:+ ".stack.yml"].

Definition paramsPath (o : cli.PackageAppOpts) : string :=
  filepath.Join [cli.OutputDir o; cli.AppName o +:+ "-" +:+ cli.EnvName o +:+ ".params.json"].

(** A state with more calls in its trace. *)
Definition logged (s : cli.State) (new : list cli.event) : cli.State :=
  {| cli.opts := cli.opts s; cli.trace := cli.trace s ++ new |}.

(** The stack that [getTemplates] builds from a manifest, an environment
    and the image tag of the options. *)
Definition stackOf (W : cli.World) (o : cli.PackageAppOpts)
    (mft : manifest.LBFargateManifest) (env : archer.Environment)
  : cloudformation.LBFargateStackConfig :=
  cloudformation.NewLBFargateStack (cli.templates_Box W)
    {| deploy.App := mft; deploy.Env := env; deploy.ImageTag := cli.Tag o |}.

Definition renderTemplate (W : cli.World) (c : cloudformation.LBFargateStackConfig)
  : string * option error :=
  cloudformation.Template (cli.ecrURLFormatString W) (cli.applyOverride W) (cli.engine W) c.

Definition renderParameters (W : cli.World) (c : cloudformation.LBFargateStackConfig)
  : string * option error :=
  cloudformation.SerializedParameters (cli.ecrURLFormatString W) (cli.applyOverride W)
    (cli.engine W) c.

(** The part of [Execute] that follows the set-up of the sinks: render both
    documents, write the template, then write the parameters. *)
Definition renderAndWrite (W : cli.World) (env : archer.Environment)
  : cli.M (option error) :=
  cli.bind (cli.getTemplates W env) (fun x =>
    match x with
    | (tpl, params, err) =>
        match err with
        | Some err => cli.ret (Some err)
        | None =>
            cli.bind cli.getOpts (fun o =>
              cli.bind (cli.Write W (cli.templateWriter o) tpl) (fun x =>
                match x with
                | (_, err) =>
                    match err with
                    | Some err => cli.ret (Some err)
                    | None =>
                        cli.bind (cli.Write W (cli.paramsWriter o) params) (fun x =>
                          match x with
                          | (_, err) => cli.ret err
                          end)
                    end
                end))
        end
    end).

(** A name without a path separator, as the names of the applications of
    a workspace and of the environments of a project are. *)
Fixpoint noSeparator (name : string) : bool :=
  match name with
  | "" => true
  | String c rest => negb (Ascii.eqb c "/") && noSeparator rest
  end.

(** The calls that open a run of the command, before it validates. *)
Definition opening (r1 : result string) (r2 r3 : option error) : list cli.event :=
  [cli.CallGitRevParse r1; cli.CallWorkspaceNew r2; cli.CallNewStore r3].

(** A stack whose natural name is longer than the bound on stack names. *)
Module longNames.

Definition project : string := string_of_list_ascii (repeat "p"%char 140).

Definition env : archer.Environment :=
  {| archer.Project := project; archer.Name := "test";
     archer.Region := "us-east-1"; archer.AccountID := "123" |}.

Definition stack : cloudformation.LBFargateStackConfig :=
  cloudformation.NewLBFargateStack scenario.box
    {| deploy.App := scenario.frontend; deploy.Env := env; deploy.ImageTag := "latest" |}.

End longNames.

(** The prompts of a trace. *)
Definition isPrompt (e : cli.event) : bool :=
  match e with
  | cli.CallSelectOne _ _ _ _ => true
  | _ => false
  end.

Definition prompts (tr : list cli.event) : list cli.event := List.filter isPrompt tr.

(** A stack configuration from its parts. *)
Definition stackFor (templates : cloudformation.Box) (app : manifest.LBFargateManifest)
    (project env region account tag : string) : cloudformation.LBFargateStackConfig :=
  cloudformation.NewLBFargateStack templates
    {| deploy.App := app;
       deploy.Env := {| archer.Project := project; archer.Name := env;
                        archer.Region := region; archer.AccountID := account |};
       deploy.ImageTag := tag |}.

(** ** Variants of the scenario

    Worlds in which one collaborator fails, and states in which a name is
    missing. *)
Module variants.

(** A template store that holds nothing. *)
Definition emptyBox : cloudformation.Box :=
  {| cloudformation.FindString := fun _ => Err (errorString "file does not exist") |}.

Definition emptyStack : cloudformation.LBFargateStackConfig :=
  cloudformation.NewLBFargateStack emptyBox
    {| deploy.App := scenario.frontend; deploy.Env := scenario.test;
       deploy.ImageTag := "latest" |}.

(** The world of the scenario, given the outcome of opening the workspace,
    of listing its applications and of creating a directory, and the
    template store. *)
Definition worldOf (opened : option error) (apps : result (list string))
    (made : option error) (templates : cloudformation.Box) : cli.World :=
  {| cli.ecrURLFormatString := cloudformation.ecrURLFormatString_spec;
     cli.projectTagKey := "ecs-project";
     cli.envTagKey := "ecs-environment";
     cli.appTagKey := "ecs-application";
     cli.applyOverride := scenario.overrideAll;
     cli.UnmarshalApp := fun _ => Ok (manifest.IsLBFargateManifest scenario.frontend);
     cli.templates_Box := templates;
     cli.newGlobalOpts := {| cli.projectName := "demo" |};
     cli.viper_projectFlag := "demo";
     cli.engine := scenario.engine;
     cli.TrimSpace := fun s => s;
     cli.git_rev_parse := fun _ => Ok "1a2b3c4";
     cli.workspace_New := fun _ => opened;
     cli.ssm_NewStore := fun _ => None;
     cli.ws_AppNames := fun _ => apps;
     cli.ws_ManifestFileName := fun app => app +:+ "-app.yml";
     cli.ws_ReadManifestFile := fun _ _ => Ok "name: frontend";
     cli.envStore_GetEnvironment := fun _ _ _ => Ok scenario.test;
     cli.envStore_ListEnvironments := fun _ _ => Ok [scenario.test];
     cli.prompt_SelectOne := fun _ _ _ options => Ok (default "" (head options));
     cli.fs_MkdirAll := fun _ _ _ => made;
     cli.fs_Create := fun tr _ => Ok (cli.FileHandle (N.of_nat (length tr)));
     cli.writer_Write := fun _ _ p => (Z.of_nat (String.length p), None) |}.

Definition listed : result (list string) := Ok ["backend"; "frontend"].

Definition noWorkspaceWorld : cli.World :=
  worldOf (Some (errorString "workspace not found")) listed None scenario.box.

Definition unlistableWorld : cli.World :=
  worldOf None (Err (errorString "permission denied")) None scenario.box.

Definition emptyWorkspaceWorld : cli.World :=
  worldOf None (Ok []) None scenario.box.

Definition readOnlyWorld : cli.World :=
  worldOf None listed (Some (errorString "read-only file system")) scenario.box.

Definition brokenWorld : cli.World :=
  worldOf None listed None scenario.brokenBox.

(** The world in which everything succeeds, git included. *)
Definition committedWorld : cli.World :=
  worldOf None listed None scenario.box.

(** The options of the scenario without an application name, without an
    environment name, and without an output directory. *)
Definition noApplicationName : cli.State :=
  {| cli.opts := cli.setAppName "" scenario.options; cli.trace := [] |}.

Definition noEnvironmentName : cli.State :=
  {| cli.opts := cli.setEnvName "" scenario.options; cli.trace := [] |}.

Definition toStandardOutput : cli.State :=
  {| cli.opts :=
       {| cli.AppName := "frontend"; cli.EnvName := "test"; cli.Tag := "latest";
          cli.OutputDir := "";
          cli.templateWriter := cli.Stdout; cli.paramsWriter := cli.Discard;
          cli.global := {| cli.projectName := "demo" |} |};
     cli.trace := [] |}.

(** Flags that name an application the workspace does not list. *)
Definition unlistedFlags : cli.Flags :=
  {| cli.flag_name := Some "worker"; cli.flag_env := Some "test";
     cli.flag_tag := None; cli.flag_output_dir := None |}.



End variants.

(** * Properties *)

(** ** Strings *)

Lemma length_sliceFrom (n : nat) (s : string) :
  String.length (sliceFrom n s) = (String.length s - n)%nat.
Proof.
  revert s; induction n as [|n IH]; intros [|c s]; simpl; try lia. apply IH.
Qed.

Lemma sliceFrom_suffix (n : nat) (s : string) : ∃ prefix, s = prefix +:+ sliceFrom n s.
Proof.
  revert s; induction n as [|n IH]; intros s.
  - exists "". reflexivity.
  - destruct s as [|c s].
    + exists "". reflexivity.
    + destruct (IH s) as [p Hp]. exists (String c p). simpl.
      change (String c p +:+ sliceFrom n s) with (String c (p +:+ sliceFrom n s)).
      congruence.
Qed.

Lemma append_nil_r (s : string) : s +:+ "" = s.
Proof.
  induction s as [|c s IH]; [reflexivity|].
  change (String c s +:+ "") with (String c (s +:+ "")). now rewrite IH.
Qed.

Lemma append_assoc (s1 s2 s3 : string) : (s1 +:+ s2) +:+ s3 = s1 +:+ (s2 +:+ s3).
Proof.
  induction s1 as [|c s1 IH]; [reflexivity|].
  change (String c ((s1 +:+ s2) +:+ s3) = String c (s1 +:+ (s2 +:+ s3))). now rewrite IH.
Qed.

Lemma length_append (s1 s2 : string) :
  String.length (s1 +:+ s2) = (String.length s1 + String.length s2)%nat.
Proof.
  induction s1 as [|c s1 IH]; [reflexivity|].
  change (S (String.length (s1 +:+ s2)) = S (String.length s1 + String.length s2)).
  now rewrite IH.
Qed.

Lemma Sprintf_stack_name (a b c : string) :
  fmt.Sprintf "%s-%s-%s-app" [a; b; c] = a +:+ "-" +:+ b +:+ "-" +:+ c +:+ "-app".
Proof. reflexivity. Qed.

Lemma Sprintf_image_location (a b c d : string) :
  fmt.Sprintf "%s/%s/%s:%s" [a; b; c; d] = a +:+ "/" +:+ b +:+ "/" +:+ c +:+ ":" +:+ d.
Proof.
  transitivity (a +:+ "/" +:+ b +:+ "/" +:+ c +:+ ":" +:+ (d +:+ "")); [reflexivity|].
  now rewrite append_nil_r.
Qed.

Lemma Sprintf_registry_url (account region location : string) :
  fmt.Sprintf cloudformation.ecrURLFormatString_spec [account; region; location]
  = account +:+ ".dkr.ecr." +:+ region +:+ ".amazonaws.com/" +:+ location.
Proof.
  transitivity (account +:+ ".dkr.ecr." +:+ region +:+ ".amazonaws.com/"
                +:+ (location +:+ "")); [reflexivity|].
  now rewrite append_nil_r.
Qed.

(** ** The stack configuration *)

Section StackProperties.

Import cloudformation.

Variable ecrURLFormatString : string.
Variables projectTagKey envTagKey appTagKey : string.
Variable applyOverride :
  manifest.LBFargateConfig -> manifest.LBFargateConfig -> manifest.LBFargateConfig.
Variable engine : Engine.

(** C1. The image location is [{project}/{environment}/{appName}:{tag}],
    and the image URL is the registry-URL format applied to the account
    id, the region and that location.  With the format of the
    specification the URL is
    [{account}.dkr.ecr.{region}.amazonaws.com/{location}]; in the
    scenario the location is [demo/test/frontend:latest] and the URL is
    [123.dkr.ecr.us-east-1.amazonaws.com/demo/test/frontend:latest]. *)
Theorem toTemplateParams_image_url (c : LBFargateStackConfig) :
  let env := deploy.Env (input c) in
  imgLoc c = imageLocation c
  ∧ URL (Image (toTemplateParams ecrURLFormatString applyOverride c))
    = fmt.Sprintf ecrURLFormatString
        [archer.AccountID env; archer.Region env; imageLocation c]
  ∧ URL (Image (toTemplateParams ecrURLFormatString_spec applyOverride c))
    = archer.AccountID env +:+ ".dkr.ecr." +:+ archer.Region env
      +:+ ".amazonaws.com/" +:+ imageLocation c
  ∧ imgLoc scenario.stack = "demo/test/frontend:latest"
  ∧ URL (Image (toTemplateParams ecrURLFormatString_spec applyOverride scenario.stack))
    = "123.dkr.ecr.us-east-1.amazonaws.com/demo/test/frontend:latest".
Proof.
  assert (Hloc : ∀ c', imgLoc c' = imageLocation c').
  { intros c'. unfold imgLoc. apply Sprintf_image_location. }
  cbn zeta. repeat split.
  - apply Hloc.
  - unfold toTemplateParams. cbn [URL Image]. rewrite Hloc. reflexivity.
  - unfold toTemplateParams. cbn [URL Image]. rewrite Hloc.
    apply Sprintf_registry_url.
Qed.

(** C2. The stack name is the natural name
    [{project}-{environment}-{appName}-app] when that has at most 128
    bytes, and otherwise its last 128 bytes: what is cut off is a prefix
    of the natural name.  In both cases the name has at most 128 bytes,
    and [StackName] has no error result. *)
Theorem StackName_bounded (c : LBFargateStackConfig) :
  ((String.length (naturalStackName c) ≤ 128)%nat → StackName c = naturalStackName c)
  ∧ ((128 < String.length (naturalStackName c))%nat →
       String.length (StackName c) = 128%nat
       ∧ ∃ prefix, naturalStackName c = prefix +:+ StackName c)
  ∧ (String.length (StackName c) ≤ 128)%nat.
Proof.
  unfold StackName. rewrite Sprintf_stack_name. fold (naturalStackName c).
  destruct (Nat.ltb_spec 128 (String.length (naturalStackName c))) as [Hlong|Hshort].
  - split; [lia|]. split.
    + intros _. split; [rewrite length_sliceFrom; lia | apply sliceFrom_suffix].
    + rewrite length_sliceFrom. lia.
  - split; [reflexivity|]. split; [lia | exact Hshort].
Qed.

(** C3. [Parameters] returns ten pairs, with the keys [ProjectName],
    [EnvName], [AppName], [ContainerImage], [ContainerPort],
    [RulePriority], [RulePath], [TaskCPU], [TaskMemory], [TaskCount] in
    this order; the values are the project and environment names of the
    environment record, the application name and port of the manifest,
    the computed image URL, the priority, and the path, CPU, memory and
    task count of the configuration resolved for the environment, which
    is the manifest's own when it has no override for the environment.
    In the scenario the values are demo, test, frontend, the image URL,
    80, 1, *, 256, 512 and 1.  [Tags] returns three tags, keyed by the
    project, environment and application tag keys, with the three names
    as values. *)
Theorem Parameters_and_Tags (c : LBFargateStackConfig) :
  let env := deploy.Env (input c) in
  let app := deploy.App (input c) in
  let conf := manifest.EnvConf applyOverride app (archer.Name env) in
  let parameters := Parameters ecrURLFormatString applyOverride c in
  length parameters = 10%nat
  ∧ map ParameterKey parameters
    = map Some ["ProjectName"; "EnvName"; "AppName"; "ContainerImage"; "ContainerPort";
                "RulePriority"; "RulePath"; "TaskCPU"; "TaskMemory"; "TaskCount"]
  ∧ map ParameterValue parameters
    = map Some [archer.Project env; archer.Name env;
                manifest.Name (manifest.appManifest app);
                fmt.Sprintf ecrURLFormatString
                  [archer.AccountID env; archer.Region env; imageLocation c];
                strconv.Itoa (manifest.Port (manifest.Image app));
                "1";
                manifest.Path conf;
                strconv.Itoa (manifest.CPU conf);
                strconv.Itoa (manifest.Memory conf);
                strconv.Itoa (manifest.Count conf)]
  ∧ (manifest.Environments app !! archer.Name env = None →
       conf = manifest.lbFargateConfig app)
  ∧ map (λ p, (ParameterKey p, ParameterValue p))
      (Parameters ecrURLFormatString_spec applyOverride scenario.stack)
    = [(Some "ProjectName", Some "demo"); (Some "EnvName", Some "test");
       (Some "AppName", Some "frontend");
       (Some "ContainerImage",
        Some "123.dkr.ecr.us-east-1.amazonaws.com/demo/test/frontend:latest");
       (Some "ContainerPort", Some "80"); (Some "RulePriority", Some "1");
       (Some "RulePath", Some "*"); (Some "TaskCPU", Some "256");
       (Some "TaskMemory", Some "512"); (Some "TaskCount", Some "1")]
  ∧ Tags projectTagKey envTagKey appTagKey c
    = [ {| Key := Some projectTagKey; Value := Some (archer.Project env) |};
        {| Key := Some envTagKey; Value := Some (archer.Name env) |};
        {| Key := Some appTagKey; Value := Some (manifest.Name (manifest.appManifest app)) |} ].
Proof.
  cbn zeta. split; [reflexivity|]. split; [reflexivity|]. split.
  { unfold Parameters, toTemplateParams. cbn [map ParameterValue URL Image Port Priority
      templateInput deploy.App deploy.Env manifest.lbFargateConfig manifest.appManifest
      aws_String].
    unfold imgLoc. rewrite Sprintf_image_location. reflexivity. }
  split.
  { intros Hnone. unfold manifest.EnvConf. now rewrite Hnone. }
  split; reflexivity.
Qed.

(** C9. The routing-rule priority of the template parameters is the
    constant 1 for every stack configuration (manifest, environment,
    image tag) and every registry format and override policy; the
    [RulePriority] parameter is therefore always the text [1]. *)
Theorem toTemplateParams_priority_constant (c : LBFargateStackConfig) :
  Priority (toTemplateParams ecrURLFormatString applyOverride c) = 1%Z
  ∧ Parameters ecrURLFormatString applyOverride c !! 5%nat
    = Some {| ParameterKey := Some "RulePriority"; ParameterValue := Some "1" |}.
Proof. split; reflexivity. Qed.

(** C5. If the template body is found and parses but its execution on
    the parameters fails, [Template] returns the empty string together
    with the execution error wrapped with the application type, whatever
    text the execution had written before it failed; so does
    [SerializedParameters].  More generally, whenever either of them
    returns an error, the string it returns is empty. *)
Theorem render_failure_has_no_output (c : LBFargateStackConfig) :
  let appType := manifest.Type' (manifest.appManifest (deploy.App (input c))) in
  let params := toTemplateParams ecrURLFormatString applyOverride c in
  (∀ content tpl partial err,
     FindString (box c) lbFargateAppTemplatePath = Ok content →
     template_Parse engine content = Ok tpl →
     template_Execute engine tpl params = (partial, Some err) →
     Template ecrURLFormatString applyOverride engine c
     = ("", Some (wrapError ("execute CloudFormation template for " +:+ appType +:+ ": ") err)))
  ∧ (∀ content tpl partial err,
     FindString (box c) lbFargateAppParamsPath = Ok content →
     template_Parse engine content = Ok tpl →
     template_Execute engine tpl params = (partial, Some err) →
     SerializedParameters ecrURLFormatString applyOverride engine c
     = ("", Some (wrapError ("execute stack configuration for " +:+ appType +:+ ": ") err)))
  ∧ (∀ err, snd (Template ecrURLFormatString applyOverride engine c) = Some err →
       fst (Template ecrURLFormatString applyOverride engine c) = "")
  ∧ (∀ err, snd (SerializedParameters ecrURLFormatString applyOverride engine c) = Some err →
       fst (SerializedParameters ecrURLFormatString applyOverride engine c) = "").
Proof.
  cbn zeta. repeat apply conj.
  - intros content tpl partial err Hfind Hparse Hexec.
    unfold Template. now rewrite Hfind, Hparse, Hexec.
  - intros content tpl partial err Hfind Hparse Hexec.
    unfold SerializedParameters. now rewrite Hfind, Hparse, Hexec.
  - intros err. unfold Template.
    destruct (FindString (box c) lbFargateAppTemplatePath) as [content|]; [|reflexivity].
    destruct (template_Parse engine content) as [tpl|]; [|reflexivity].
    destruct (template_Execute engine tpl _) as [buf [e|]]; [reflexivity|discriminate].
  - intros err. unfold SerializedParameters.
    destruct (FindString (box c) lbFargateAppParamsPath) as [content|]; [|reflexivity].
    destruct (template_Parse engine content) as [tpl|]; [|reflexivity].
    destruct (template_Execute engine tpl _) as [buf [e|]]; [reflexivity|discriminate].
Qed.

End StackProperties.

Lemma StackName_bounded_witness :
  cloudformation.StackName scenario.stack = "demo-test-frontend-app"
  ∧ String.length (cloudformation.StackName longNames.stack) = 128%nat.
Proof.
  split.
  - apply (StackName_bounded scenario.stack). vm_compute. lia.
  - apply (StackName_bounded longNames.stack). vm_compute. lia.
Defined.

Lemma Parameters_and_Tags_witness :
  manifest.EnvConf scenario.overrideAll scenario.frontend "test"
  = manifest.lbFargateConfig scenario.frontend.
Proof.
  apply (Parameters_and_Tags cloudformation.ecrURLFormatString_spec
           "ecs-project" "ecs-environment" "ecs-application"
           scenario.overrideAll scenario.stack).
  reflexivity.
Defined.

Lemma render_failure_has_no_output_witness :
  cloudformation.Template cloudformation.ecrURLFormatString_spec scenario.overrideAll
    scenario.engine scenario.brokenStack
  = ("", Some (wrapError "execute CloudFormation template for Load Balanced Web App: "
                 (errorString "can't evaluate field Missing")))
  ∧ fst (cloudformation.SerializedParameters cloudformation.ecrURLFormatString_spec
           scenario.overrideAll scenario.engine scenario.brokenStack) = "".
Proof.
  destruct (render_failure_has_no_output cloudformation.ecrURLFormatString_spec
              scenario.overrideAll scenario.engine scenario.brokenStack)
    as (Htemplate & _ & _ & Hparams).
  split.
  - apply (Htemplate "{{.Missing}}" "{{.Missing}}" "partial output"); reflexivity.
  - apply (Hparams (wrapError "execute stack configuration for Load Balanced Web App: "
                      (errorString "can't evaluate field Missing"))).
    reflexivity.
Defined.

(** ** Paths *)

Section Paths.

Import filepath.

Lemma elements_nonempty (path : string) : elements path ≠ [].
Proof.
  destruct path as [|c rest]; simpl; [discriminate|].
  destruct (Ascii.eqb c "/"); [discriminate|].
  destruct (elements rest); discriminate.
Qed.

Lemma elements_app (a b : string) :
  elements (a +:+ String "/" b) = (elements a ++ elements b)%list.
Proof.
  induction a as [|c a IH]; [reflexivity|].
  change (String c a +:+ String "/" b) with (String c (a +:+ String "/" b)).
  simpl. rewrite IH.
  destruct (Ascii.eqb c "/"); [reflexivity|].
  pose proof (elements_nonempty a) as Hne.
  destruct (elements a) as [|e es]; [contradiction|reflexivity].
Qed.

Lemma elements_noSeparator (name : string) :
  noSeparator name = true → elements name = [name].
Proof.
  induction name as [|c name IH]; [reflexivity|].
  simpl. intros H. apply andb_true_iff in H as [Hc Hrest].
  apply negb_true_iff in Hc. rewrite Hc, (IH Hrest). reflexivity.
Qed.

Lemma noSeparator_app (a b : string) :
  noSeparator (a +:+ b) = noSeparator a && noSeparator b.
Proof.
  induction a as [|c a IH]; [reflexivity|].
  change (String c a +:+ b) with (String c (a +:+ b)). simpl.
  rewrite IH. now rewrite andb_assoc.
Qed.

Lemma cleanStep_name (rooted : bool) (out : list string) (name : string) :
  (2 < String.length name)%nat → cleanStep rooted out name = name :: out.
Proof.
  intros Hlen. unfold cleanStep.
  destruct (String.eqb_spec name "") as [->|_]; [simpl in Hlen; lia|].
  destruct (String.eqb_spec name ".") as [->|_]; [simpl in Hlen; lia|].
  destruct (String.eqb_spec name "..") as [->|_]; [simpl in Hlen; lia|].
  reflexivity.
Qed.

Lemma isRooted_app (dir rest : string) :
  dir ≠ "" → isRooted (dir +:+ rest) = isRooted dir.
Proof. destruct dir; [contradiction|reflexivity]. Qed.

(** A file name joined to a directory is cleaned to the elements of the
    cleaned directory followed by the file name. *)
Lemma Join_file_name (dir name : string) :
  dir ≠ "" → noSeparator name = true → (2 < String.length name)%nat →
  Join [dir; name] = fromElements (isRooted dir) (cleanElements dir ++ [name]).
Proof.
  intros Hdir Hsep Hlen. unfold Join.
  apply String.eqb_neq in Hdir as Hdir'. rewrite Hdir'.
  change (strings.Join [dir; name] "/") with (dir +:+ String "/" name).
  unfold Clean.
  destruct (dir +:+ String "/" name) as [|c rest] eqn:Hpath.
  { destruct dir; [contradiction|discriminate]. }
  rewrite <- Hpath. unfold cleanElements.
  rewrite isRooted_app by assumption.
  rewrite elements_app, (elements_noSeparator name Hsep), fold_left_app.
  simpl. rewrite cleanStep_name by assumption. reflexivity.
Qed.

End Paths.

(** ** The command *)

#[local] Arguments fmt.Sprintf : simpl never.
#[local] Arguments filepath.Join : simpl never.

Ltac unfold_monad :=
  unfold cli.orReturn, cli.bind, cli.ret, cli.call, cli.getOpts, cli.setOpts in *.

(** Case analysis on the innermost scrutinee of the goal. *)
Ltac break_match :=
  match goal with
  | |- context [match ?x with _ => _ end] =>
      lazymatch x with
      | context [match _ with _ => _ end] => fail
      | _ => destruct x eqn:?
      end
  end.

Lemma contains_elem_of (s : string) (items : list string) :
  cli.contains s items = true ↔ s ∈ items.
Proof.
  induction items as [|item rest IH]; simpl.
  - split; [discriminate | intros H; inversion H].
  - destruct (String.eqb_spec s item) as [->|Hne].
    + split; [intros _; left | reflexivity].
    + rewrite IH. split; [intros H; right; exact H | intros H].
      inversion H; subst; [contradiction | assumption].
Qed.

Lemma Sprintf_unknown_application (name : string) :
  errorString (fmt.Sprintf "application '%s' does not exist in the workspace" [name])
  = unknownApplication name.
Proof. reflexivity. Qed.

Lemma Sprintf_unsupported_manifest (t : string) :
  errorString (fmt.Sprintf "create CloudFormation template for manifest of type %s" [t])
  = unsupportedManifest t.
Proof.
  unfold unsupportedManifest. f_equal.
  transitivity ("create CloudFormation template for manifest of type " +:+ (t +:+ ""));
    [reflexivity|].
  now rewrite append_nil_r.
Qed.

Lemma Sprintf_template_file (app : string) :
  fmt.Sprintf "%s.stack.yml" [app] = app +:+ ".stack.yml".
Proof. reflexivity. Qed.

Lemma Sprintf_params_file (app env : string) :
  fmt.Sprintf "%s-%s.params.json" [app; env] = app +:+ "-" +:+ env +:+ ".params.json".
Proof. reflexivity. Qed.

Section CommandProperties.

Import cli.

Variable W : World.

Lemma logged_logged (s : State) (a b : list event) :
  logged (logged s a) b = logged s (a ++ b).
Proof. unfold logged. simpl. now rewrite app_assoc. Qed.

Lemma opts_logged (s : State) (a : list event) : opts (logged s a) = opts s.
Proof. reflexivity. Qed.

Lemma trace_logged (s : State) (a : list event) : trace (logged s a) = (trace s ++ a)%list.
Proof. reflexivity. Qed.

Lemma Write_run (w : Writer) (p : string) (s : State) :
  ∃ r, Write W w p s = (r, logged s [CallWrite w p r])
       ∧ (w = Discard → r = (Z.of_nat (String.length p), None)).
Proof.
  unfold Write, call. eexists. split; [reflexivity|]. now intros ->.
Qed.

Lemma getTemplates_state (env : archer.Environment) (s : State) :
  let path := ws_ManifestFileName W (AppName (opts s)) in
  snd (getTemplates W env s)
  = logged s [CallReadManifestFile path (ws_ReadManifestFile W (trace s) path)].
Proof.
  unfold getTemplates. unfold_monad. simpl.
  repeat (break_match; simpl); reflexivity.
Qed.

(** The result of [getTemplates], by the outcome of reading and decoding
    the manifest and of the two renders. *)
Lemma getTemplates_result (env : archer.Environment) (s : State) :
  let path := ws_ManifestFileName W (AppName (opts s)) in
  fst (getTemplates W env s)
  = match ws_ReadManifestFile W (trace s) path with
    | Err err => ("", "", Some err)
    | Ok raw =>
        match UnmarshalApp W raw with
        | Err err => ("", "", Some err)
        | Ok (manifest.IsLBFargateManifest mft) =>
            let stack := stackOf W (opts s) mft env in
            match snd (renderTemplate W stack) with
            | Some err => ("", "", Some err)
            | None =>
                (fst (renderTemplate W stack), fst (renderParameters W stack),
                 snd (renderParameters W stack))
            end
        | Ok (manifest.OtherManifest t) => ("", "", Some (unsupportedManifest t))
        end
    end.
Proof.
  unfold getTemplates, renderTemplate, renderParameters, stackOf. unfold_monad. simpl.
  destruct (ws_ReadManifestFile W _ _) as [raw|]; [|reflexivity].
  destruct (UnmarshalApp W raw) as [[mft|t]|]; simpl; [| |reflexivity].
  - destruct (cloudformation.Template _ _ _ _) as [tpl [err|]]; [reflexivity|].
    destruct (cloudformation.SerializedParameters _ _ _ _) as [params err]. reflexivity.
  - now rewrite Sprintf_unsupported_manifest.
Qed.

(** The runs of the second half of [Execute]: after the manifest is read,
    either the templates fail and nothing is written, or the template is
    written and fails, or both documents are written in this order. *)
Lemma renderAndWrite_cases (env : archer.Environment) (s : State) :
  let path := ws_ManifestFileName W (AppName (opts s)) in
  let read := CallReadManifestFile path (ws_ReadManifestFile W (trace s) path) in
  let tw := templateWriter (opts s) in
  let pw := paramsWriter (opts s) in
  (∃ tpl params err,
     fst (getTemplates W env s) = (tpl, params, Some err)
     ∧ renderAndWrite W env s = (Some err, logged s [read]))
  ∨ (∃ tpl params n err,
     fst (getTemplates W env s) = (tpl, params, None)
     ∧ renderAndWrite W env s
       = (Some err, logged s [read; CallWrite tw tpl (n, Some err)]))
  ∨ (∃ tpl params n r,
     fst (getTemplates W env s) = (tpl, params, None)
     ∧ (pw = Discard → r = (Z.of_nat (String.length params), None))
     ∧ renderAndWrite W env s
       = (snd r, logged s [read; CallWrite tw tpl (n, None); CallWrite pw params r])).
Proof.
  cbn zeta. unfold renderAndWrite, bind, getOpts, ret.
  pose proof (getTemplates_state env s) as Hstate. cbn zeta in Hstate.
  destruct (getTemplates W env s) as [[[tpl params] err] s1]. simpl in Hstate. subst s1.
  simpl fst. destruct err as [err|].
  { left. exists tpl, params, err. split; reflexivity. }
  right.
  match goal with
  | |- context [Write W ?w ?p ?st] => destruct (Write_run w p st) as ([n err] & -> & _)
  end.
  rewrite logged_logged, opts_logged. simpl app.
  destruct err as [err|].
  { left. exists tpl, params, n, err. split; reflexivity. }
  right.
  match goal with
  | |- context [Write W ?w ?p ?st] => destruct (Write_run w p st) as (r & -> & Hdiscard)
  end.
  rewrite logged_logged. simpl app.
  exists tpl, params, n, r. split; [reflexivity|]. split; [exact Hdiscard|].
  destruct r as [n' err']. reflexivity.
Qed.

Lemma Execute_unfold (s : State) :
  let o := opts s in
  let project := projectName (global o) in
  let r := envStore_GetEnvironment W (trace s) project (EnvName o) in
  let s1 := logged s [CallGetEnvironment project (EnvName o) r] in
  Execute W s
  = match r with
    | Err err => (Some err, s1)
    | Ok env =>
        if String.eqb (OutputDir o) "" then renderAndWrite W env s1
        else match setFileWriters W s1 with
             | (Some err, s2) => (Some err, s2)
             | (None, s2) => renderAndWrite W env s2
             end
    end.
Proof.
  destruct s as [o tr]. cbn zeta. unfold logged. simpl opts. simpl trace.
  unfold Execute, renderAndWrite, GetEnvironment. unfold_monad. simpl.
  destruct (envStore_GetEnvironment W tr (projectName (global o)) (EnvName o)); [|reflexivity].
  destruct (OutputDir o =? "")%string; simpl; [reflexivity|].
  destruct (setFileWriters W _) as [[err|] s2]; reflexivity.
Qed.

(** The four ways [setFileWriters] runs. *)
Lemma setFileWriters_cases (s : State) :
  let o := opts s in
  let dir := OutputDir o in
  let mkdir := CallMkdirAll dir 493 in
  (∃ err,
     setFileWriters W s
     = (Some (wrapError (fmt.Sprintf "create directory %s: " [dir]) err),
        logged s [mkdir (Some err)]))
  ∨ (∃ err,
     setFileWriters W s
     = (Some (wrapError (fmt.Sprintf "create file %s: " [templatePath o]) err),
        logged s [mkdir None; CallCreate (templatePath o) (Err err)]))
  ∨ (∃ templateFile err,
     setFileWriters W s
     = (Some (wrapError (fmt.Sprintf "create file %s: " [paramsPath o]) err),
        {| opts := setTemplateWriter (FileWriter templateFile) o;
           trace := trace s ++ [mkdir None; CallCreate (templatePath o) (Ok templateFile);
                                CallCreate (paramsPath o) (Err err)] |}))
  ∨ (∃ templateFile paramsFile,
     setFileWriters W s
     = (None,
        {| opts := setParamsWriter (FileWriter paramsFile)
                     (setTemplateWriter (FileWriter templateFile) o);
           trace := trace s ++ [mkdir None; CallCreate (templatePath o) (Ok templateFile);
                                CallCreate (paramsPath o) (Ok paramsFile)] |})).
Proof.
  destruct s as [o tr]. cbn zeta. unfold logged. simpl opts. simpl trace.
  unfold templatePath, paramsPath.
  rewrite <- Sprintf_template_file, <- Sprintf_params_file.
  unfold setFileWriters. unfold_monad. simpl.
  destruct (fs_MkdirAll W tr (OutputDir o) 493) as [err|] eqn:Hmkdir.
  { left. exists err. reflexivity. }
  right. break_match; simpl.
  2:{ left. eexists. rewrite <- app_assoc. reflexivity. }
  right. break_match; simpl.
  2:{ left. do 2 eexists. rewrite <- !app_assoc. reflexivity. }
  right. do 2 eexists. rewrite <- !app_assoc. reflexivity.
Qed.

Lemma result_cases {A : Type} (r : result A) : (∃ a, r = Ok a) ∨ (∃ err, r = Err err).
Proof. destruct r; eauto. Qed.

Lemma option_cases {A : Type} (x : option A) : (∃ a, x = Some a) ∨ x = None.
Proof. destruct x; eauto. Qed.

Lemma writes_app (a b : list event) : writes (a ++ b) = (writes a ++ writes b)%list.
Proof. apply List.filter_app. Qed.

Lemma setFileWriters_run (s : State) :
  ∃ new,
    trace (snd (setFileWriters W s)) = (trace s ++ new)%list
    ∧ writes new = []
    ∧ (∀ project env, lookups project env new = 0%nat)
    ∧ fsCalls new = new
    ∧ (createdFiles new = []
       ∨ createdFiles new = [templatePath (opts s)]
       ∨ createdFiles new = [templatePath (opts s); paramsPath (opts s)]).
Proof.
  destruct (setFileWriters_cases s) as
    [(err & ->) | [(err & ->) | [(f1 & err & ->) | (f1 & f2 & ->)]]];
    eexists; (split; [reflexivity|]); repeat split; auto.
Qed.

(** C10. [Execute] writes the parameter document only after the write of
    the template has succeeded.  In every run the writes are: none, and
    [Execute] returns an error; or the template alone, whose write failed
    with the error that [Execute] returns; or the template, written
    successfully, followed by the parameter document, and [Execute]
    returns the outcome of that second write.  If the lookup of the
    environment fails, [Execute] returns its error after that single
    call; if the set-up of the file sinks fails, [Execute] returns its
    error and nothing has been written; if [getTemplates] fails (which
    it does with the error of whichever render fails), [Execute] returns
    its error and nothing has been written; if the write of the template
    fails, [Execute] returns its error and that write is the only one. *)
Theorem Execute_writes_parameters_last (s : State) :
  let o := opts s in
  let project := projectName (global o) in
  let lookup := envStore_GetEnvironment W (trace s) project (EnvName o) in
  let s1 := logged s [CallGetEnvironment project (EnvName o) lookup] in
  let setup := if String.eqb (OutputDir o) "" then (None, s1) else setFileWriters W s1 in
  let s2 := snd setup in
  (∃ new,
     trace (snd (Execute W s)) = (trace s ++ new)%list
     ∧ ((writes new = [] ∧ ∃ err, fst (Execute W s) = Some err)
        ∨ (∃ tpl n err,
             writes new = [CallWrite (templateWriter (opts s2)) tpl (n, Some err)]
             ∧ fst (Execute W s) = Some err)
        ∨ (∃ tpl params n r,
             writes new = [CallWrite (templateWriter (opts s2)) tpl (n, None);
                           CallWrite (paramsWriter (opts s2)) params r]
             ∧ fst (Execute W s) = snd r)))
  ∧ (∀ err, lookup = Err err → Execute W s = (Some err, s1))
  ∧ (∀ env err, lookup = Ok env → fst setup = Some err →
       Execute W s = (Some err, s2)
       ∧ ∃ new, trace s2 = (trace s ++ new)%list ∧ writes new = [])
  ∧ (∀ env tpl params err, lookup = Ok env → fst setup = None →
       fst (getTemplates W env s2) = (tpl, params, Some err) →
       Execute W s = (Some err, snd (getTemplates W env s2))
       ∧ ∃ new, trace (snd (getTemplates W env s2)) = (trace s ++ new)%list
                ∧ writes new = [])
  ∧ (∀ env tpl params n err, lookup = Ok env → fst setup = None →
       fst (getTemplates W env s2) = (tpl, params, None) →
       let s3 := snd (getTemplates W env s2) in
       fst (Write W (templateWriter (opts s3)) tpl s3) = (n, Some err) →
       Execute W s = (Some err, snd (Write W (templateWriter (opts s3)) tpl s3))
       ∧ ∃ new, trace (snd (Write W (templateWriter (opts s3)) tpl s3))
                = (trace s ++ new)%list
                ∧ writes new = [CallWrite (templateWriter (opts s2)) tpl (n, Some err)])
  ∧ (∀ env raw mft,
       ws_ReadManifestFile W (trace s2) (ws_ManifestFileName W (AppName (opts s2))) = Ok raw →
       UnmarshalApp W raw = Ok (manifest.IsLBFargateManifest mft) →
       let stack := stackOf W (opts s2) mft env in
       (∀ err, snd (renderTemplate W stack) = Some err →
               fst (getTemplates W env s2) = ("", "", Some err))
       ∧ (∀ err, snd (renderTemplate W stack) = None →
                 snd (renderParameters W stack) = Some err →
                 snd (fst (getTemplates W env s2)) = Some err)).
Proof.
  cbn zeta.
  pose proof (Execute_unfold s) as Hexec. cbn zeta in Hexec.
  set (o := opts s) in *.
  set (project := projectName (global o)) in *.
  set (lookup := envStore_GetEnvironment W (trace s) project (EnvName o)) in *.
  set (s1 := logged s [CallGetEnvironment project (EnvName o) lookup]) in *.
  assert (Hsetup : ∃ new,
            trace (snd (if String.eqb (OutputDir o) "" then (None, s1)
                        else setFileWriters W s1)) = (trace s ++ new)%list
            ∧ writes new = []).
  { destruct (String.eqb (OutputDir o) "").
    - eexists. split; [reflexivity|reflexivity].
    - destruct (setFileWriters_run s1) as (new & Htr & Hw & _).
      exists ([CallGetEnvironment project (EnvName o) lookup] ++ new)%list.
      split; [|rewrite writes_app, Hw; reflexivity].
      rewrite Htr. unfold s1. rewrite trace_logged. now rewrite app_assoc. }
  assert (Hexec' : ∀ env, lookup = Ok env →
            fst (if String.eqb (OutputDir o) "" then (None, s1) else setFileWriters W s1)
            = None →
            Execute W s
            = renderAndWrite W env
                (snd (if String.eqb (OutputDir o) "" then (None, s1)
                      else setFileWriters W s1))).
  { intros env Hl Hnone. rewrite Hexec, Hl.
    destruct (String.eqb (OutputDir o) ""); [reflexivity|].
    destruct (setFileWriters W s1) as [[e|] s2']; [discriminate|reflexivity]. }
  set (setup := if String.eqb (OutputDir o) "" then (None, s1) else setFileWriters W s1) in *.
  destruct Hsetup as (newSetup & HtrSetup & HwSetup).
  repeat apply conj.
  - destruct (result_cases lookup) as [(env & Hlookup)|(err & Hlookup)].
    2:{ rewrite Hexec, Hlookup. eexists. split; [reflexivity|].
        left. split; [reflexivity|eauto]. }
    destruct (option_cases (fst setup)) as [(err & Hfst)|Hfst].
    { exists newSetup. rewrite Hexec, Hlookup.
      assert (Heq : (if String.eqb (OutputDir o) "" then renderAndWrite W env s1
                     else match setFileWriters W s1 with
                          | (Some err0, s2) => (Some err0, s2)
                          | (None, s2) => renderAndWrite W env s2
                          end) = (Some err, snd setup)).
      { unfold setup in *. destruct (String.eqb (OutputDir o) ""); [discriminate|].
        destruct (setFileWriters W s1) as [[e|] s2']; simpl in *; congruence. }
      rewrite Heq. split; [exact HtrSetup|]. left. split; [exact HwSetup|eauto]. }
    rewrite (Hexec' env Hlookup Hfst).
    destruct (renderAndWrite_cases env (snd setup)) as
      [(tpl & params & err & Hget & ->)
      |[(tpl & params & n & err & Hget & ->)
       |(tpl & params & n & r & Hget & _ & ->)]];
      cbn [fst snd];
      eexists; (split; [rewrite trace_logged, HtrSetup, <- app_assoc; reflexivity|]);
      rewrite writes_app, HwSetup; simpl.
    + left. split; [reflexivity|eauto].
    + right. left. eauto.
    + right. right. eauto 10.
  - intros err Hl. rewrite Hexec, Hl. reflexivity.
  - intros env err Hl Hfst. split; [|eauto].
    rewrite Hexec, Hl. unfold setup in *.
    destruct (String.eqb (OutputDir o) ""); [discriminate|].
    destruct (setFileWriters W s1) as [[e|] s2']; simpl in *; congruence.
  - intros env tpl params err Hl Hfst Hget.
    rewrite (Hexec' env Hl Hfst).
    destruct (renderAndWrite_cases env (snd setup)) as
      [(tpl' & params' & err' & Hget' & Hrun)
      |[(tpl' & params' & n & err' & Hget' & _)
       |(tpl' & params' & n & r & Hget' & _)]]; try congruence.
    rewrite Hrun, getTemplates_state. split; [congruence|].
    cbn zeta. eexists. split; [rewrite trace_logged, HtrSetup, <- app_assoc; reflexivity|].
    rewrite writes_app, HwSetup. reflexivity.
  - intros env tpl params n err Hl Hfst Hget Hwrite.
    rewrite (Hexec' env Hl Hfst).
    split.
    + unfold renderAndWrite, bind, getOpts, ret.
      destruct (getTemplates W env (snd setup)) as [[[tpl' params'] err'] s3].
      cbn [fst snd] in Hget, Hwrite |- *. injection Hget as -> -> ->.
      destruct (Write W (templateWriter (opts s3)) tpl s3) as [[n' e'] s4].
      cbn [fst snd] in Hwrite |- *. now injection Hwrite as -> ->.
    + rewrite getTemplates_state in *.
      match type of Hwrite with
      | context [Write W ?w ?p ?st] => destruct (Write_run w p st) as (r & Hrun & _)
      end.
      rewrite Hrun in *. simpl in Hwrite. subst r.
      cbn [fst snd]. rewrite logged_logged, trace_logged, HtrSetup, <- app_assoc.
      eexists. split; [reflexivity|].
      rewrite writes_app, HwSetup. reflexivity.
  - intros env raw mft Hread Hdecode. cbn zeta.
    rewrite getTemplates_result. cbn zeta. rewrite Hread, Hdecode.
    split.
    + intros err ->. reflexivity.
    + intros err -> ->. reflexivity.
Qed.

Lemma lookups_app (project env : string) (a b : list event) :
  lookups project env (a ++ b) = (lookups project env a + lookups project env b)%nat.
Proof. unfold lookups. now rewrite List.filter_app, length_app. Qed.

Lemma fsCalls_app (a b : list event) : fsCalls (a ++ b) = (fsCalls a ++ fsCalls b)%list.
Proof. apply List.filter_app. Qed.

Lemma lookups_self (project env : string) (r : result archer.Environment) :
  lookups project env [CallGetEnvironment project env r] = 1%nat.
Proof. unfold lookups. simpl. now rewrite !String.eqb_refl. Qed.

(** C8. [Validate] fails with the no-project error whenever the project
    name is empty, whatever the other fields and the world are, and calls
    no collaborator.  With a project and an application name, once the
    workspace has listed its applications, [Validate] fails with the
    unknown-application error if the name is absent from the list, and
    if the name is present it only fails with the error of the
    environment store.  The lookup of a supplied environment name is the
    last call, and its error, if any, is what [Validate] returns. *)
Theorem Validate_errors (s : State) :
  let o := opts s in
  let project := projectName (global o) in
  (project = "" → Validate W s = (Some errNoProjectInWorkspace, s))
  ∧ (project ≠ "" → AppName o ≠ "" →
     ∀ names, ws_AppNames W (trace s) = Ok names →
       let s1 := logged s [CallAppNames (Ok names)] in
       let lookup := envStore_GetEnvironment W (trace s1) project (EnvName o) in
       (AppName o ∉ names → Validate W s = (Some (unknownApplication (AppName o)), s1))
       ∧ (AppName o ∈ names → EnvName o = "" → Validate W s = (None, s1))
       ∧ (AppName o ∈ names → EnvName o ≠ "" →
            Validate W s
            = (match lookup with Err err => Some err | Ok _ => None end,
               logged s1 [CallGetEnvironment project (EnvName o) lookup])))
  ∧ (project ≠ "" → AppName o = "" → EnvName o ≠ "" →
     let lookup := envStore_GetEnvironment W (trace s) project (EnvName o) in
     Validate W s
     = (match lookup with Err err => Some err | Ok _ => None end,
        logged s [CallGetEnvironment project (EnvName o) lookup])).
Proof.
  destruct s as [o tr]. cbn zeta. unfold logged. simpl opts. simpl trace.
  split; [|split].
  - intros Hp. unfold Validate. unfold_monad. simpl. rewrite Hp. reflexivity.
  - intros Hp Ha names Hnames.
    apply String.eqb_neq in Hp, Ha.
    unfold Validate, listAppNames, GetEnvironment. unfold_monad. simpl.
    rewrite Hp, Ha. simpl. rewrite Hnames.
    rewrite Sprintf_unknown_application.
    split; [|split].
    + intros Hnot. destruct (contains (AppName o) names) eqn:Hc; [|reflexivity].
      apply contains_elem_of in Hc. contradiction.
    + intros Hin He. apply contains_elem_of in Hin. rewrite Hin, He. reflexivity.
    + intros Hin He. apply contains_elem_of in Hin. apply String.eqb_neq in He.
      rewrite Hin, He. simpl. rewrite <- app_assoc.
      destruct (envStore_GetEnvironment W _ _ _); reflexivity.
  - intros Hp Ha He.
    apply String.eqb_neq in Hp, He.
    unfold Validate, listAppNames, GetEnvironment. unfold_monad. simpl.
    rewrite Hp, Ha, He. simpl.
    destruct (envStore_GetEnvironment W _ _ _); reflexivity.
Qed.

(** What every run of [Validate] does to the state: the options are
    left as they are, nothing is written or created, and a successful
    run with an environment name has looked it up once. *)
Lemma Validate_run (s : State) :
  let o := opts s in
  let project := projectName (global o) in
  ∃ new,
    snd (Validate W s) = logged s new
    ∧ writes new = [] ∧ fsCalls new = [] ∧ createdFiles new = []
    ∧ (∀ project' env', (lookups project' env' new ≤ 1)%nat)
    ∧ (fst (Validate W s) = None → EnvName o ≠ "" →
         lookups project (EnvName o) new = 1%nat).
Proof.
  destruct s as [o tr]. cbn zeta. unfold logged. simpl opts. simpl trace.
  unfold Validate, listAppNames, GetEnvironment. unfold_monad. simpl.
  repeat (break_match; simpl);
    rewrite <- ?app_assoc;
    eexists; (split; [try reflexivity; rewrite app_nil_r; reflexivity|]);
    (split; [reflexivity|]); (split; [reflexivity|]); (split; [reflexivity|]);
    unfold lookups; simpl;
    (split; [intros project' env'; repeat (break_match; simpl); lia|]);
    rewrite ?String.eqb_refl; simpl;
    intros Hres Henv; try discriminate; try reflexivity.
  all: apply String.eqb_neq in Henv; rewrite Henv in *; simpl in *; discriminate.
Qed.

(** What every run of [Ask] does to the state: it only fills in the
    names that are empty, writes and creates nothing, and does not look
    up any environment. *)
Lemma Ask_run (s : State) :
  let o := opts s in
  ∃ new o',
    snd (Ask W s) = {| opts := o'; trace := trace s ++ new |}
    ∧ writes new = [] ∧ fsCalls new = [] ∧ createdFiles new = []
    ∧ (∀ project env, lookups project env new = 0%nat)
    ∧ global o' = global o ∧ Tag o' = Tag o ∧ OutputDir o' = OutputDir o
    ∧ templateWriter o' = templateWriter o ∧ paramsWriter o' = paramsWriter o
    ∧ (EnvName o ≠ "" → EnvName o' = EnvName o).
Proof.
  destruct s as [o tr]. cbn zeta. simpl opts. simpl trace.
  unfold Ask, listAppNames, listEnvNames, SelectOne. unfold_monad. simpl.
  repeat (break_match; simpl);
    rewrite <- ?app_assoc;
    do 2 eexists; (split; [try reflexivity; rewrite app_nil_r; reflexivity|]);
    repeat (split; [reflexivity|]); simpl;
    try (intros _; reflexivity); intros Henv; try reflexivity.
  all: apply String.eqb_neq in Henv; simpl in *; congruence.
Qed.

Ltac trace_eq := unfold logged, opening; cbn [trace opts]; rewrite <- ?app_assoc; reflexivity.

Lemma createdFiles_app (a b : list event) :
  createdFiles (a ++ b) = (createdFiles a ++ createdFiles b)%list.
Proof.
  induction a as [|e a IH]; [reflexivity|].
  destruct e as [| | | | | | | | |path [f|err]|]; simpl; now rewrite IH.
Qed.

Lemma NewPackageAppOpts_run (s : State) :
  let o := fst (NewPackageAppOpts W s) in
  snd (NewPackageAppOpts W s) = logged s [CallGitRevParse (git_rev_parse W (trace s))]
  ∧ AppName o = "" ∧ EnvName o = "" ∧ OutputDir o = ""
  ∧ templateWriter o = Stdout ∧ paramsWriter o = Discard
  ∧ global o = newGlobalOpts W.
Proof.
  unfold NewPackageAppOpts. unfold_monad. simpl.
  destruct (git_rev_parse W (trace s)); simpl; repeat split; reflexivity.
Qed.

(** The part of a run of the command that precedes [Execute]: it writes
    and creates nothing, keeps the sinks, the output directory and the
    project, and when it reaches [Execute] with an environment name given
    by a flag, both passes of [Validate] have looked that name up. *)
Lemma command_reaches_Execute (flags : Flags) (s : State) :
  let o := parseFlags flags (fst (NewPackageAppOpts W s)) in
  let project := projectName (newGlobalOpts W) in
  ∃ pre,
    writes pre = [] ∧ fsCalls pre = [] ∧ createdFiles pre = []
    ∧ (lookups project (EnvName o) pre ≤ 2)%nat
    ∧ ((∃ err s', BuildAppPackageCmd W flags s = (Some err, s')
                  ∧ trace s' = (trace s ++ pre)%list)
       ∨ (∃ s', BuildAppPackageCmd W flags s = Execute W s'
                ∧ trace s' = (trace s ++ pre)%list
                ∧ global (opts s') = newGlobalOpts W
                ∧ OutputDir (opts s') = OutputDir o
                ∧ templateWriter (opts s') = Stdout
                ∧ paramsWriter (opts s') = Discard
                ∧ (EnvName o ≠ "" →
                     EnvName (opts s') = EnvName o
                     ∧ lookups project (EnvName o) pre = 2%nat))).
Proof.
  cbn zeta.
  destruct (NewPackageAppOpts_run s) as (Hs0 & _ & _ & _ & Htw & Hpw & Hglobal).
  remember (BuildAppPackageCmd W flags s) as run eqn:Hrun.
  unfold BuildAppPackageCmd, bind in Hrun.
  destruct (NewPackageAppOpts W s) as [o0 s0]. cbn [fst snd] in *. subst s0.
  set (o := parseFlags flags o0) in *.
  assert (Ho : global o = newGlobalOpts W ∧ templateWriter o = Stdout
               ∧ paramsWriter o = Discard).
  { unfold o, parseFlags. simpl. auto. }
  destruct Ho as (Hog & Hotw & Hopw).
  set (project := projectName (newGlobalOpts W)).
  assert (Hopening : ∀ r1 r2 r3,
            writes (opening r1 r2 r3) = [] ∧ fsCalls (opening r1 r2 r3) = []
            ∧ createdFiles (opening r1 r2 r3) = []
            ∧ lookups project (EnvName o) (opening r1 r2 r3) = 0%nat).
  { intros. repeat split. }
  unfold setOpts, orReturn, bind, ret in Hrun. cbn [opts trace logged] in Hrun.
  unfold PreRunE, bind, call, ret in Hrun. cbn [opts trace] in Hrun.
  set (git := git_rev_parse W (trace s)) in *.
  destruct (workspace_New W (trace s ++ [CallGitRevParse git])) as [err|] eqn:Hws.
  { exists [CallGitRevParse git; CallWorkspaceNew (Some err)].
    split; [reflexivity|]. split; [reflexivity|]. split; [reflexivity|].
    split; [unfold lookups; simpl; lia|].
    left. subst run. do 2 eexists. split; [reflexivity|].
    trace_eq. }
  destruct (ssm_NewStore W _) as [err|] eqn:Hstore.
  { exists (opening git None (Some err)).
    destruct (Hopening git None (Some err)) as (-> & -> & -> & ->).
    split; [reflexivity|]. split; [reflexivity|]. split; [reflexivity|].
    split; [lia|].
    left. subst run. do 2 eexists. split; [reflexivity|].
    trace_eq. }
  destruct (Hopening git None None) as (Hw0 & Hf0 & Hc0 & Hl0).
  match type of Hrun with
  | context [Validate W ?st] =>
      destruct (Validate_run st) as (new1 & Hs1 & Hw1 & Hf1 & Hc1 & Hle1 & Hl1);
      destruct (Validate W st) as [res1 s1]
  end.
  cbn [fst snd opts trace logged] in *. subst s1. rewrite Hog in *. fold project in Hl1.
  pose proof (Hle1 project (EnvName o)) as Hle1'.
  destruct res1 as [err|].
  { exists (opening git None None ++ new1)%list.
    rewrite writes_app, fsCalls_app, createdFiles_app, lookups_app,
      Hw0, Hf0, Hc0, Hl0, Hw1, Hf1, Hc1.
    split; [reflexivity|]. split; [reflexivity|]. split; [reflexivity|].
    split; [lia|].
    left. subst run. do 2 eexists. split; [reflexivity|].
    trace_eq. }
  unfold RunE, orReturn, bind, ret in Hrun.
  match type of Hrun with
  | context [Ask W ?st] =>
      destruct (Ask_run st) as
        (new2 & o2 & Hs2 & Hw2 & Hf2 & Hc2 & Hl2 & Hg2 & _ & Hd2 & Htw2 & Hpw2 & He2);
      destruct (Ask W st) as [res2 s2]
  end.
  cbn [fst snd opts trace] in *. subst s2.
  destruct res2 as [err|].
  { exists (opening git None None ++ new1 ++ new2)%list.
    rewrite !writes_app, !fsCalls_app, !createdFiles_app, !lookups_app,
      Hw0, Hf0, Hc0, Hl0, Hw1, Hf1, Hc1, Hw2, Hf2, Hc2, Hl2.
    split; [reflexivity|]. split; [reflexivity|]. split; [reflexivity|].
    split; [lia|].
    left. subst run. do 2 eexists. split; [reflexivity|].
    trace_eq. }
  match type of Hrun with
  | context [Validate W ?st] =>
      destruct (Validate_run st) as (new3 & Hs3 & Hw3 & Hf3 & Hc3 & Hle3 & Hl3);
      destruct (Validate W st) as [res3 s3]
  end.
  cbn [fst snd opts trace logged] in *. subst s3. rewrite Hg2, Hog in *.
  fold project in Hl3.
  pose proof (Hle3 project (EnvName o)) as Hle3'.
  exists (opening git None None ++ new1 ++ new2 ++ new3)%list.
  rewrite !writes_app, !fsCalls_app, !createdFiles_app, !lookups_app,
    Hw0, Hf0, Hc0, Hl0, Hw1, Hf1, Hc1, Hw2, Hf2, Hc2, Hl2, Hw3, Hf3, Hc3.
  split; [reflexivity|]. split; [reflexivity|]. split; [reflexivity|].
  split; [lia|].
  destruct res3 as [err|].
  { left. subst run. do 2 eexists. split; [reflexivity|].
    trace_eq. }
  right. subst run. eexists. split; [reflexivity|].
  unfold logged. cbn [opts].
  split; [trace_eq|]. split; [congruence|]. split; [congruence|].
  split; [congruence|]. split; [congruence|].
  intros Hne. split; [auto|].
  rewrite (He2 Hne) in Hl3.
  rewrite (Hl1 eq_refl Hne), (Hl3 eq_refl Hne). reflexivity.
Qed.

(** The three ways [Execute] runs: the lookup fails; the set-up of the
    file sinks fails; or both succeed and the documents are rendered and
    written. *)
Lemma Execute_stages (s : State) :
  let o := opts s in
  let project := projectName (global o) in
  let lookup := envStore_GetEnvironment W (trace s) project (EnvName o) in
  let s1 := logged s [CallGetEnvironment project (EnvName o) lookup] in
  (∃ err, lookup = Err err ∧ Execute W s = (Some err, s1))
  ∨ (∃ env err s2,
       lookup = Ok env ∧ OutputDir o ≠ ""
       ∧ setFileWriters W s1 = (Some err, s2) ∧ Execute W s = (Some err, s2))
  ∨ (∃ env s2,
       lookup = Ok env ∧ OutputDir o ≠ ""
       ∧ setFileWriters W s1 = (None, s2) ∧ Execute W s = renderAndWrite W env s2)
  ∨ (∃ env,
       lookup = Ok env ∧ OutputDir o = "" ∧ Execute W s = renderAndWrite W env s1).
Proof.
  cbn zeta. rewrite (Execute_unfold s). cbn zeta.
  destruct (envStore_GetEnvironment W _ _ _) as [env|err]; [|left; eauto].
  right. destruct (String.eqb_spec (OutputDir (opts s)) "") as [Hdir|Hdir].
  { right. right. eauto. }
  destruct (setFileWriters W _) as [[err|] s2]; [left|right; left]; eauto 10.
Qed.

Ltac Execute_leaves s :=
  let Hrun := fresh "Hrun" in
  let Hget := fresh "Hget" in
  let Hlookup := fresh "Hlookup" in
  let Hdir := fresh "Hdir" in
  let Hsetup := fresh "Hsetup" in
  destruct (Execute_stages s) as
    [(?err & Hlookup & Hrun)
    |[(?env & ?err & ?s2 & Hlookup & Hdir & Hsetup & Hrun)
     |[(?env & ?s2 & Hlookup & Hdir & Hsetup & Hrun)
      |(?env & Hlookup & Hdir & Hrun)]]];
  [ | destruct (setFileWriters_cases
                  (logged s [CallGetEnvironment (projectName (global (opts s)))
                               (EnvName (opts s))
                               (envStore_GetEnvironment W (trace s)
                                  (projectName (global (opts s))) (EnvName (opts s)))])) as
        [(?err & Hcase)|[(?err & Hcase)|[(?f & ?err & Hcase)|(?f1 & ?f2 & Hcase)]]];
      rewrite Hcase in Hsetup; injection Hsetup as ? ?; subst
    | destruct (setFileWriters_cases
                  (logged s [CallGetEnvironment (projectName (global (opts s)))
                               (EnvName (opts s))
                               (envStore_GetEnvironment W (trace s)
                                  (projectName (global (opts s))) (EnvName (opts s)))])) as
        [(?err & Hcase)|[(?err & Hcase)|[(?f & ?err & Hcase)|(?f1 & ?f2 & Hcase)]]];
      rewrite Hcase in Hsetup; try discriminate; injection Hsetup as ?; subst;
      match type of Hrun with
      | _ = renderAndWrite W ?env ?st =>
          destruct (renderAndWrite_cases env st) as
            [(?tpl & ?params & ?err & Hget & Hrw)
            |[(?tpl & ?params & ?n & ?err & Hget & Hrw)
             |(?tpl & ?params & ?n & ?r & Hget & ?Hdiscard & Hrw)]];
          rewrite Hrw in Hrun
      end
    | match type of Hrun with
      | _ = renderAndWrite W ?env ?st =>
          destruct (renderAndWrite_cases env st) as
            [(?tpl & ?params & ?err & Hget & Hrw)
            |[(?tpl & ?params & ?n & ?err & Hget & Hrw)
             |(?tpl & ?params & ?n & ?r & Hget & ?Hdiscard & Hrw)]];
          rewrite Hrw in Hrun
      end ];
  rewrite Hrun; clear Hrun;
  unfold logged; cbn [fst snd opts trace];
  rewrite <- ?app_assoc; cbn [app].

Lemma Execute_lookups (s : State) :
  ∃ new,
    trace (snd (Execute W s)) = (trace s ++ new)%list
    ∧ lookups (projectName (global (opts s))) (EnvName (opts s)) new = 1%nat.
Proof.
  Execute_leaves s; (eexists; split; [reflexivity|]);
    unfold lookups; simpl; rewrite !String.eqb_refl; reflexivity.
Qed.




(** C4. When the decoded manifest is not a load-balanced Fargate
    manifest, [getTemplates] returns two empty strings and an error that
    names the type of the manifest.  In a run of [Execute] that reads
    such a manifest, [Execute] returns that error and writes nothing to
    either sink. *)
Theorem unsupported_manifest_is_an_error (env : archer.Environment) (s : State) :
  let path := ws_ManifestFileName W (AppName (opts s)) in
  (∀ raw t,
     ws_ReadManifestFile W (trace s) path = Ok raw →
     UnmarshalApp W raw = Ok (manifest.OtherManifest t) →
     getTemplates W env s
     = (("", "", Some (unsupportedManifest t)),
        logged s [CallReadManifestFile path (Ok raw)]))
  ∧ (∃ new,
       trace (snd (Execute W s)) = (trace s ++ new)%list
       ∧ ∀ path' raw t,
           CallReadManifestFile path' (Ok raw) ∈ new →
           UnmarshalApp W raw = Ok (manifest.OtherManifest t) →
           fst (Execute W s) = Some (unsupportedManifest t) ∧ writes new = []).
Proof.
  cbn zeta. split.
  - intros raw t Hread Hdecode.
    pose proof (getTemplates_result env s) as Hres.
    pose proof (getTemplates_state env s) as Hstate.
    cbn zeta in Hres, Hstate. rewrite Hread in Hres, Hstate. rewrite Hdecode in Hres.
    destruct (getTemplates W env s) as [res s']. simpl in Hres, Hstate. now subst.
  - Execute_leaves s; (eexists; split; [reflexivity|]);
      intros path' raw t Hin Hdecode;
      repeat (apply elem_of_cons in Hin as [Hin|Hin]; [try discriminate|]);
      try (apply elem_of_nil in Hin; contradiction);
      injection Hin as _ Hread;
      rewrite getTemplates_result in Hget; cbn zeta in Hget;
      unfold logged in Hget;
      cbn [opts trace AppName setParamsWriter setTemplateWriter] in Hget;
      rewrite <- ?app_assoc in Hget; cbn [app] in Hget;
      rewrite <- Hread, Hdecode in Hget; try discriminate;
      injection Hget as _ _ <-; split; reflexivity.
Qed.

(** C6, as the command implements it.  In a run of the command with an
    environment name given by the flag, the store is asked for that
    environment of the project at most three times, and exactly three
    times when the run succeeds: once by each of the two passes of
    [Validate] and once by [Execute].  Every run of [Execute] asks
    exactly once. *)
Theorem environment_lookups_of_a_run (flags : Flags) (s : State) (env : string) :
  flag_env flags = Some env → env ≠ "" →
  let project := projectName (newGlobalOpts W) in
  (∃ new,
     trace (snd (BuildAppPackageCmd W flags s)) = (trace s ++ new)%list
     ∧ (lookups project env new ≤ 3)%nat
     ∧ (fst (BuildAppPackageCmd W flags s) = None → lookups project env new = 3%nat))
  ∧ (∀ s', ∃ new,
       trace (snd (Execute W s')) = (trace s' ++ new)%list
       ∧ lookups (projectName (global (opts s'))) (EnvName (opts s')) new = 1%nat).
Proof.
  intros Hflag Hne. cbn zeta. split; [|apply Execute_lookups].
  destruct (command_reaches_Execute flags s) as (pre & _ & _ & _ & Hle & Hcases).
  cbn zeta in Hle, Hcases.
  assert (Henv : EnvName (parseFlags flags (fst (NewPackageAppOpts W s))) = env).
  { unfold parseFlags. cbn [EnvName]. now rewrite Hflag. }
  rewrite Henv in *.
  destruct Hcases as [(err & s' & -> & Htr)|(s' & -> & Htr & Hg & _ & _ & _ & Hl)].
  { exists pre. cbn [fst snd]. split; [exact Htr|]. split; [lia|discriminate]. }
  destruct (Hl Hne) as (He & Hpre).
  destruct (Execute_lookups s') as (new & Hnew & Hone).
  rewrite Hg, He in Hone.
  exists (pre ++ new)%list. rewrite Hnew, Htr, <- app_assoc, lookups_app.
  split; [reflexivity|]. split; [lia|]. intros _. lia.
Qed.

End CommandProperties.

(** C6 as it is stated fails: in the scenario, where the environment name
    is given by the flag and every collaborator succeeds, the store is
    asked for the environment three times, not once. *)
Lemma lookup_is_not_once :
  cli.flag_env scenario.flags = Some "test"
  ∧ lookups "demo" "test"
      (cli.trace (snd (cli.BuildAppPackageCmd scenario.world scenario.flags scenario.start)))
    ≠ 1%nat.
Proof. split; [reflexivity|]. vm_compute. discriminate. Qed.


(** ** The properties at the scenario *)

Lemma unsupported_manifest_is_an_error_witness :
  cli.getTemplates scenario.unsupportedWorld scenario.test scenario.ready
  = (("", "", Some (unsupportedManifest "*manifest.BackendManifest")),
     logged scenario.ready [cli.CallReadManifestFile "frontend-app.yml" (Ok "name: frontend")]).
Proof.
  apply (unsupported_manifest_is_an_error scenario.unsupportedWorld scenario.test
           scenario.ready); reflexivity.
Defined.

Lemma environment_lookups_of_a_run_witness :
  cli.flag_env scenario.flags = Some "test"
  ∧ "test" ≠ ""
  ∧ ∃ new,
      cli.trace (snd (cli.BuildAppPackageCmd scenario.world scenario.flags scenario.start))
      = (cli.trace scenario.start ++ new)%list
      ∧ (lookups "demo" "test" new ≤ 3)%nat
      ∧ (fst (cli.BuildAppPackageCmd scenario.world scenario.flags scenario.start) = None →
         lookups "demo" "test" new = 3%nat).
Proof.
  split; [reflexivity|]. split; [discriminate|].
  apply (environment_lookups_of_a_run scenario.world scenario.flags scenario.start "test");
    [reflexivity|discriminate].
Defined.


Lemma Validate_errors_witness :
  cli.Validate scenario.world scenario.outsideProject
  = (Some errNoProjectInWorkspace, scenario.outsideProject)
  ∧ cli.Validate scenario.world scenario.unlistedApplication
    = (Some (unknownApplication "worker"),
       logged scenario.unlistedApplication [cli.CallAppNames (Ok ["backend"; "frontend"])]).
Proof.
  split.
  - apply (Validate_errors scenario.world scenario.outsideProject). reflexivity.
  - destruct (Validate_errors scenario.world scenario.unlistedApplication) as (_ & Happ & _).
    cbn zeta in Happ.
    destruct (Happ ltac:(discriminate) ltac:(discriminate) ["backend"; "frontend"] eq_refl)
      as (Habsent & _).
    apply Habsent.
    intros Hin. apply list_elem_of_In in Hin. simpl in Hin.
    repeat destruct Hin as [Hin|Hin]; try discriminate Hin. exact Hin.
Defined.

Lemma Execute_writes_parameters_last_witness :
  cli.Execute scenario.noEnvironmentWorld scenario.ready
  = (Some (errorString "environment not found"),
     logged scenario.ready
       [cli.CallGetEnvironment "demo" "test" (Err (errorString "environment not found"))]).
Proof.
  apply (Execute_writes_parameters_last scenario.noEnvironmentWorld scenario.ready).
  reflexivity.
Defined.

(** * Further properties of the code *)

(** ** The stack configuration, continued *)

Lemma sliceFrom_app (n : nat) (a b : string) :
  (n ≤ String.length a)%nat → sliceFrom n (a +:+ b) = sliceFrom n a +:+ b.
Proof.
  revert a; induction n as [|n IH]; intros a Hn; [reflexivity|].
  destruct a as [|c a]; [simpl in Hn; lia|].
  change (String c a +:+ b) with (String c (a +:+ b)). simpl.
  apply IH. simpl in Hn. lia.
Qed.

Lemma naturalStackName_body (c : cloudformation.LBFargateStackConfig) :
  naturalStackName c
  = (archer.Project (deploy.Env (cloudformation.input c)) +:+ "-"
     +:+ archer.Name (deploy.Env (cloudformation.input c)) +:+ "-"
     +:+ manifest.Name (manifest.appManifest (deploy.App (cloudformation.input c))))
    +:+ "-app".
Proof. unfold naturalStackName. now rewrite !append_assoc. Qed.

(** X1. Truncation of a stack name only drops bytes at its front: the
    name that [StackName] returns is a suffix of
    [{project}-{environment}-{appName}] followed by [-app], so the suffix
    [-app] always survives, and nothing is dropped when the natural name
    fits the bound. *)
Theorem StackName_keeps_suffix (c : cloudformation.LBFargateStackConfig) :
  let env := deploy.Env (cloudformation.input c) in
  let app := deploy.App (cloudformation.input c) in
  ∃ dropped kept,
    archer.Project env +:+ "-" +:+ archer.Name env +:+ "-"
      +:+ manifest.Name (manifest.appManifest app)
    = dropped +:+ kept
    ∧ cloudformation.StackName c = kept +:+ "-app"
    ∧ ((String.length (naturalStackName c) ≤ 128)%nat → dropped = "").
Proof.
  cbn zeta. unfold cloudformation.StackName. rewrite Sprintf_stack_name.
  fold (naturalStackName c). rewrite naturalStackName_body.
  set (body := _ +:+ "-" +:+ _ +:+ "-" +:+ _).
  destruct (Nat.ltb_spec 128 (String.length (body +:+ "-app"))) as [Hlong|Hshort].
  - rewrite length_append in *. simpl in Hlong.
    destruct (sliceFrom_suffix (String.length body + 4 - 128) body) as [dropped Hdropped].
    exists dropped, (sliceFrom (String.length body + 4 - 128) body).
    split; [exact Hdropped|]. split; [|simpl; lia].
    apply sliceFrom_app. lia.
  - exists "", body. repeat split.
Qed.

Lemma StackName_keeps_suffix_witness :
  ∃ dropped kept,
    longNames.project +:+ "-test-frontend" = dropped +:+ kept
    ∧ cloudformation.StackName longNames.stack = kept +:+ "-app".
Proof.
  destruct (StackName_keeps_suffix longNames.stack) as (dropped & kept & Hbody & Hname & _).
  exists dropped, kept. split; [exact Hbody|exact Hname].
Defined.

(** X2. A stack name does not determine the project and the environment:
    moving a hyphenated part from the end of the project name to the
    front of the environment name leaves the stack name unchanged. *)
Theorem StackName_hyphen_collision (templates : cloudformation.Box)
    (app : manifest.LBFargateManifest) (project part env region account tag : string) :
  cloudformation.StackName
    (stackFor templates app (project +:+ "-" +:+ part) env region account tag)
  = cloudformation.StackName
      (stackFor templates app project (part +:+ "-" +:+ env) region account tag).
Proof.
  unfold cloudformation.StackName. rewrite !Sprintf_stack_name.
  cbn [stackFor cloudformation.NewLBFargateStack cloudformation.input deploy.Env deploy.App
       archer.Project archer.Name].
  now rewrite !append_assoc.
Qed.

Section RenderProperties.

Import cloudformation.

Variable ecrURLFormatString : string.
Variable applyOverride :
  manifest.LBFargateConfig -> manifest.LBFargateConfig -> manifest.LBFargateConfig.
Variable engine : Engine.

(** X3. [Template] succeeds exactly when the template body is found in
    the store, parses, and executes without error, and it then returns all
    the text of the execution.  A body that is missing from the store
    gives [ErrTemplateNotFound] with the location of the template and the
    error of the store; a body that does not parse gives the error of the
    parser wrapped with the type of the application. *)
Theorem Template_outcomes (c : LBFargateStackConfig) :
  let appType := manifest.Type' (manifest.appManifest (deploy.App (input c))) in
  let params := toTemplateParams ecrURLFormatString applyOverride c in
  let found := FindString (box c) "lb-fargate-service/cf.yml" in
  (snd (Template ecrURLFormatString applyOverride engine c) = None
   ↔ ∃ content tpl,
       found = Ok content ∧ template_Parse engine content = Ok tpl
       ∧ snd (template_Execute engine tpl params) = None)
  ∧ (∀ content tpl,
       found = Ok content → template_Parse engine content = Ok tpl →
       snd (template_Execute engine tpl params) = None →
       Template ecrURLFormatString applyOverride engine c
       = (fst (template_Execute engine tpl params), None))
  ∧ (∀ err, found = Err err →
       Template ecrURLFormatString applyOverride engine c
       = ("", Some (ErrTemplateNotFound "lb-fargate-service/cf.yml" err)))
  ∧ (∀ content err,
       found = Ok content → template_Parse engine content = Err err →
       Template ecrURLFormatString applyOverride engine c
       = ("", Some (wrapError ("parse CloudFormation template for " +:+ appType +:+ ": ")
                      err))).
Proof.
  cbn zeta. unfold Template, lbFargateAppTemplatePath.
  destruct (FindString (box c) _) as [content|err] eqn:Hfound.
  2:{ split; [|split; [|split]].
      - split; [discriminate|]. intros (content & tpl & H & _). discriminate H.
      - intros ? ? H. discriminate H.
      - now intros ? [= ->].
      - intros ? ? H. discriminate H. }
  destruct (template_Parse engine content) as [tpl|err] eqn:Hparse.
  2:{ split; [|split; [|split]].
      - split; [discriminate|]. intros (content' & tpl & [= <-] & H & _). congruence.
      - intros ? ? [= <-] H. congruence.
      - intros ? H. discriminate H.
      - intros ? ? [= <-] H. rewrite Hparse in H. now injection H as ->. }
  destruct (template_Execute engine tpl _) as [buf [err|]] eqn:Hexec.
  - split; [|split; [|split]].
    + split; [discriminate|].
      intros (content' & tpl' & [= <-] & H1 & H).
      rewrite Hparse in H1. injection H1 as <-. rewrite Hexec in H. discriminate H.
    + intros ? ? [= <-] H1 H.
      rewrite Hparse in H1. injection H1 as <-. rewrite Hexec in H. discriminate H.
    + intros ? H. discriminate H.
    + intros ? ? [= <-] H. congruence.
  - split; [|split; [|split]].
    + split; [|reflexivity]. intros _. exists content, tpl. now rewrite Hexec.
    + intros ? ? [= <-] H1 _.
      rewrite Hparse in H1. injection H1 as <-. now rewrite Hexec.
    + intros ? H. discriminate H.
    + intros ? ? [= <-] H. congruence.
Qed.

(** X4. [SerializedParameters] succeeds exactly when the body of the
    parameter document is found, parses, and executes without error, and
    it then returns all the text of the execution; its errors are those of
    [Template], for the location and the wording of the parameter
    document. *)
Theorem SerializedParameters_outcomes (c : LBFargateStackConfig) :
  let appType := manifest.Type' (manifest.appManifest (deploy.App (input c))) in
  let params := toTemplateParams ecrURLFormatString applyOverride c in
  let found := FindString (box c) "lb-fargate-service/params.json" in
  (snd (SerializedParameters ecrURLFormatString applyOverride engine c) = None
   ↔ ∃ content tpl,
       found = Ok content ∧ template_Parse engine content = Ok tpl
       ∧ snd (template_Execute engine tpl params) = None)
  ∧ (∀ content tpl,
       found = Ok content → template_Parse engine content = Ok tpl →
       snd (template_Execute engine tpl params) = None →
       SerializedParameters ecrURLFormatString applyOverride engine c
       = (fst (template_Execute engine tpl params), None))
  ∧ (∀ err, found = Err err →
       SerializedParameters ecrURLFormatString applyOverride engine c
       = ("", Some (ErrTemplateNotFound "lb-fargate-service/params.json" err)))
  ∧ (∀ content err,
       found = Ok content → template_Parse engine content = Err err →
       SerializedParameters ecrURLFormatString applyOverride engine c
       = ("", Some (wrapError ("parse stack configuration for " +:+ appType +:+ ": ")
                      err))).
Proof.
  cbn zeta. unfold SerializedParameters, lbFargateAppParamsPath.
  destruct (FindString (box c) _) as [content|err] eqn:Hfound.
  2:{ split; [|split; [|split]].
      - split; [discriminate|]. intros (content & tpl & H & _). discriminate H.
      - intros ? ? H. discriminate H.
      - now intros ? [= ->].
      - intros ? ? H. discriminate H. }
  destruct (template_Parse engine content) as [tpl|err] eqn:Hparse.
  2:{ split; [|split; [|split]].
      - split; [discriminate|]. intros (content' & tpl & [= <-] & H & _). congruence.
      - intros ? ? [= <-] H. congruence.
      - intros ? H. discriminate H.
      - intros ? ? [= <-] H. rewrite Hparse in H. now injection H as ->. }
  destruct (template_Execute engine tpl _) as [buf [err|]] eqn:Hexec.
  - split; [|split; [|split]].
    + split; [discriminate|].
      intros (content' & tpl' & [= <-] & H1 & H).
      rewrite Hparse in H1. injection H1 as <-. rewrite Hexec in H. discriminate H.
    + intros ? ? [= <-] H1 H.
      rewrite Hparse in H1. injection H1 as <-. rewrite Hexec in H. discriminate H.
    + intros ? H. discriminate H.
    + intros ? ? [= <-] H. congruence.
  - split; [|split; [|split]].
    + split; [|reflexivity]. intros _. exists content, tpl. now rewrite Hexec.
    + intros ? ? [= <-] H1 _.
      rewrite Hparse in H1. injection H1 as <-. now rewrite Hexec.
    + intros ? H. discriminate H.
    + intros ? ? [= <-] H. congruence.
Qed.

End RenderProperties.

(** ** The command, continued *)

Section MoreCommandProperties.

Import cli.

Variable W : World.

(** X5. [Validate] returns [nil] exactly when the options name a project,
    the application name is empty or among the names the workspace lists,
    and the environment name is empty or known to the store, which is
    asked after the workspace. *)
Theorem Validate_succeeds_iff (s : State) :
  let o := opts s in
  let project := projectName (global o) in
  let listed := ws_AppNames W (trace s) in
  let tr1 := if String.eqb (AppName o) "" then trace s
             else (trace s ++ [CallAppNames listed])%list in
  fst (Validate W s) = None
  ↔ project ≠ ""
    ∧ (AppName o = "" ∨ ∃ names, listed = Ok names ∧ AppName o ∈ names)
    ∧ (EnvName o = ""
       ∨ ∃ env, envStore_GetEnvironment W tr1 project (EnvName o) = Ok env).
Proof.
  destruct s as [o tr]. cbn zeta. simpl opts. simpl trace.
  unfold Validate, listAppNames, GetEnvironment. unfold_monad. simpl.
  destruct (String.eqb_spec (projectName (global o)) "") as [Hp|Hp]; simpl.
  { split; [discriminate|]. intros (H & _). contradiction. }
  destruct (String.eqb_spec (AppName o) "") as [Ha|Ha]; simpl.
  - destruct (String.eqb_spec (EnvName o) "") as [He|He]; simpl.
    + split; [intros _|reflexivity]. auto.
    + destruct (envStore_GetEnvironment W tr _ _) as [env|err] eqn:Hlookup; simpl.
      * split; [intros _|reflexivity]. eauto 6.
      * split; [discriminate|]. intros (_ & _ & [Hempty|(env & Henv)]); congruence.
  - destruct (ws_AppNames W tr) as [names|err] eqn:Hlist; simpl.
    2:{ split; [discriminate|].
        intros (_ & [Hempty|(names & Hnames & _)] & _); congruence. }
    destruct (contains (AppName o) names) eqn:Hc; simpl.
    2:{ split; [discriminate|].
        intros (_ & [Hempty|(names' & [= <-] & Hin)] & _); [congruence|].
        apply contains_elem_of in Hin. congruence. }
    apply contains_elem_of in Hc.
    destruct (String.eqb_spec (EnvName o) "") as [He|He]; simpl.
    + split; [intros _|reflexivity]. eauto 8.
    + destruct (envStore_GetEnvironment W _ _ _) as [env|err] eqn:Hlookup; simpl.
      * split; [intros _|reflexivity]. eauto 8.
      * split; [discriminate|]. intros (_ & _ & [Hempty|(env & Henv)]); congruence.
Qed.

(** X6. [Validate] leaves the options as they are and calls nothing but
    the listing of the workspace and then the lookup in the store, each at
    most once.  If the workspace fails to list its applications,
    [Validate] returns that error with its context and does not ask the
    store. *)
Theorem Validate_calls (s : State) :
  let o := opts s in
  let project := projectName (global o) in
  (∃ new,
     snd (Validate W s) = logged s new
     ∧ (new = []
        ∨ (∃ r, new = [CallAppNames r])
        ∨ (∃ r, new = [CallGetEnvironment project (EnvName o) r])
        ∨ (∃ names r, new = [CallAppNames (Ok names);
                             CallGetEnvironment project (EnvName o) r])))
  ∧ (∀ err, project ≠ "" → AppName o ≠ "" → ws_AppNames W (trace s) = Err err →
       Validate W s
       = (Some (wrapError "list applications in workspace: " err),
          logged s [CallAppNames (Err err)])).
Proof.
  destruct s as [o tr]. cbn zeta. unfold logged. simpl opts. simpl trace. split.
  - unfold Validate, listAppNames, GetEnvironment. unfold_monad. simpl.
    repeat (break_match; simpl); rewrite <- ?app_assoc;
      eexists; (split; [try reflexivity; rewrite app_nil_r; reflexivity|]); eauto 8.
  - intros err Hp Ha Hlist. apply String.eqb_neq in Hp, Ha.
    unfold Validate, listAppNames. unfold_monad. simpl.
    rewrite Hp, Ha. simpl. rewrite Hlist. reflexivity.
Qed.

Lemma prompts_app (a b : list event) : prompts (a ++ b) = (prompts a ++ prompts b)%list.
Proof. apply List.filter_app. Qed.

(** X7. [Ask] only fills in the names that are missing: a name that is
    not empty is kept, the tag, the output directory, the sinks and the
    project are kept, nothing is written or created, and at most two
    prompts are shown.  With both names given, [Ask] calls nothing and
    returns [nil]. *)
Theorem Ask_only_fills_missing_names (s : State) :
  let o := opts s in
  ∃ new o',
    snd (Ask W s) = {| opts := o'; trace := trace s ++ new |}
    ∧ (AppName o ≠ "" → AppName o' = AppName o)
    ∧ (EnvName o ≠ "" → EnvName o' = EnvName o)
    ∧ (Tag o' = Tag o ∧ OutputDir o' = OutputDir o ∧ global o' = global o
       ∧ templateWriter o' = templateWriter o ∧ paramsWriter o' = paramsWriter o)
    ∧ (writes new = [] ∧ fsCalls new = [] ∧ (length (prompts new) ≤ 2)%nat)
    ∧ (AppName o ≠ "" → EnvName o ≠ "" → new = [] ∧ o' = o ∧ fst (Ask W s) = None).
Proof.
  destruct s as [o tr]. cbn zeta. simpl opts. simpl trace.
  unfold Ask, listAppNames, listEnvNames, SelectOne. unfold_monad. simpl.
  repeat (break_match; simpl);
    rewrite <- ?app_assoc;
    do 2 eexists; (split; [try reflexivity; rewrite app_nil_r; reflexivity|]);
    (split; [intros Happ; try reflexivity;
             apply String.eqb_neq in Happ; simpl in *; congruence|]);
    (split; [intros Henv; try reflexivity;
             apply String.eqb_neq in Henv; simpl in *; congruence|]);
    (split; [repeat split|]);
    (split; [repeat split; simpl; lia|]);
    intros Happ Henv; apply String.eqb_neq in Happ, Henv; simpl in *; try congruence.
  destruct o; repeat split.
Qed.

(** X8. With no application name and a workspace that lists no
    application, [Ask] fails with the error that tells to run [archer
    init], after the listing alone: it shows no prompt and does not go on
    to the environment. *)
Theorem Ask_no_applications (s : State) :
  AppName (opts s) = "" → ws_AppNames W (trace s) = Ok [] →
  Ask W s
  = (Some (errorString
             "there are no applications in the workspace, run `archer init` first"),
     logged s [CallAppNames (Ok [])]).
Proof.
  destruct s as [o tr]. simpl. intros Happ Hlist.
  unfold Ask, listAppNames. unfold_monad. simpl. rewrite Happ. simpl. rewrite Hlist.
  reflexivity.
Qed.

(** X9. With no application name and a workspace that lists applications,
    [Ask] shows one prompt that offers exactly the listed names, in their
    order.  The answer becomes the application name, whether or not an
    environment name is given: with one, [Ask] is done; without one, [Ask]
    goes on, from the options that hold the answer, to list the
    environments and to prompt for one.  An error of the prompt for the
    application is returned with its context, and then the environment is
    not asked for.  An error of the listing is returned with its context
    before any prompt. *)
Theorem Ask_application_prompt (s : State) :
  let o := opts s in
  AppName o = "" →
  (∀ names, ws_AppNames W (trace s) = Ok names → names ≠ [] →
     let tr1 := (trace s ++ [CallAppNames (Ok names)])%list in
     let answer := prompt_SelectOne W tr1 appPackageAppNamePrompt "" names in
     let asked := CallSelectOne appPackageAppNamePrompt "" names answer in
     (∀ err, answer = Err err →
        Ask W s = (Some (wrapError "prompt application name: " err),
                   logged s [CallAppNames (Ok names); asked]))
     ∧ (∀ app, answer = Ok app →
          let s1 := {| opts := setAppName app o;
                       trace := trace s ++ [CallAppNames (Ok names); asked] |} in
          let project := viper_projectFlag W in
          let listed := envStore_ListEnvironments W (trace s1) project in
          AppName (opts (snd (Ask W s))) = app
          ∧ (EnvName o ≠ "" → Ask W s = (None, s1))
          ∧ (∀ err, EnvName o = "" → listed = Err err →
               Ask W s
               = (Some (wrapError ("list environments for project " +:+ project +:+ ": ")
                          err),
                  logged s1 [CallListEnvironments project (Err err)]))
          ∧ (∀ envs, EnvName o = "" → listed = Ok envs →
               let envNames := map archer.Name envs in
               let tr2 := (trace s1 ++ [CallListEnvironments project (Ok envs)])%list in
               let answer2 := prompt_SelectOne W tr2 appPackageEnvNamePrompt "" envNames in
               let asked2 := CallSelectOne appPackageEnvNamePrompt "" envNames answer2 in
               (∀ err, answer2 = Err err →
                  Ask W s
                  = (Some (wrapError "prompt environment name: " err),
                     logged s1 [CallListEnvironments project (Ok envs); asked2]))
               ∧ (∀ env, answer2 = Ok env →
                    Ask W s
                    = (None,
                       {| opts := setEnvName env (setAppName app o);
                          trace := trace s1 ++ [CallListEnvironments project (Ok envs);
                                                asked2] |})))))
  ∧ (∀ err, ws_AppNames W (trace s) = Err err →
       Ask W s = (Some (wrapError "list applications in workspace: " err),
                  logged s [CallAppNames (Err err)])).
Proof.
  destruct s as [o tr]. cbn zeta. unfold logged. simpl opts. simpl trace.
  intros Happ. split.
  - intros names Hlist Hne.
    unfold Ask, listAppNames, listEnvNames, SelectOne. unfold_monad. simpl.
    rewrite Happ. simpl. rewrite Hlist.
    destruct names as [|name names]; [contradiction|]. simpl. split.
    + intros err ->. rewrite <- app_assoc. reflexivity.
    + intros app ->. simpl.
      destruct (String.eqb_spec (EnvName o) "") as [Henv|Henv]; simpl.
      2:{ rewrite <- app_assoc. split; [reflexivity|]. split; [reflexivity|].
          split; [intros err' Hempty; contradiction|intros envs' Hempty; contradiction]. }
      rewrite <- !app_assoc. cbn [List.app].
      destruct (envStore_ListEnvironments W _ _) as [envs|err] eqn:Henvs; simpl.
      2:{ split; [reflexivity|]. split; [intros Hne'; contradiction|].
          split; [|intros envs' _ [=]].
          intros err' _ [= <-]. rewrite <- !app_assoc. reflexivity. }
      split; [destruct (prompt_SelectOne W _ appPackageEnvNamePrompt _ _); reflexivity|].
      split; [intros Hne'; contradiction|].
      split; [intros err' _ [=]|].
      intros envs' _ [= <-]. rewrite <- !app_assoc. cbn [List.app].
      destruct (prompt_SelectOne W _ appPackageEnvNamePrompt _ _) as [env|err];
        simpl; split; intros ? [=]; subst; rewrite <- ?app_assoc; reflexivity.
  - intros err Hlist.
    unfold Ask, listAppNames. unfold_monad. simpl.
    rewrite Happ. simpl. rewrite Hlist. reflexivity.
Qed.

(** X10. With an application name and no environment name, [Ask] lists
    the environments of the project that the global configuration names
    and shows one prompt that offers their names, in their order, even
    when there is none.  The answer becomes the environment name; an error
    of the listing or of the prompt is returned with its context. *)
Theorem Ask_environment_prompt (s : State) :
  let o := opts s in
  let project := viper_projectFlag W in
  let listed := envStore_ListEnvironments W (trace s) project in
  AppName o ≠ "" → EnvName o = "" →
  (∀ envs, listed = Ok envs →
     let names := map archer.Name envs in
     let tr1 := (trace s ++ [CallListEnvironments project (Ok envs)])%list in
     let answer := prompt_SelectOne W tr1 appPackageEnvNamePrompt "" names in
     let asked := CallSelectOne appPackageEnvNamePrompt "" names answer in
     (∀ err, answer = Err err →
        Ask W s = (Some (wrapError "prompt environment name: " err),
                   logged s [CallListEnvironments project (Ok envs); asked]))
     ∧ (∀ env, answer = Ok env →
          Ask W s = (None, {| opts := setEnvName env o;
                              trace := trace s ++ [CallListEnvironments project (Ok envs);
                                                   asked] |})))
  ∧ (∀ err, listed = Err err →
       Ask W s
       = (Some (wrapError ("list environments for project " +:+ project +:+ ": ") err),
          logged s [CallListEnvironments project (Err err)])).
Proof.
  destruct s as [o tr]. cbn zeta. unfold logged. simpl opts. simpl trace.
  intros Happ Henv. apply String.eqb_neq in Happ. split.
  - intros envs Hlist.
    unfold Ask, listEnvNames, SelectOne. unfold_monad. simpl.
    rewrite Happ. simpl. rewrite Henv. simpl. rewrite Hlist. simpl. split.
    + intros err ->. rewrite <- app_assoc. reflexivity.
    + intros env ->. rewrite <- app_assoc. reflexivity.
  - intros err Hlist.
    unfold Ask, listEnvNames. unfold_monad. simpl.
    rewrite Happ. simpl. rewrite Henv. simpl. rewrite Hlist. reflexivity.
Qed.

(** X11. [setFileWriters] stops at the first failure and keeps what it
    has done so far.  If the directory cannot be created, no file is
    created and the options are unchanged.  If the second file cannot be
    created, the first file exists, the template writer is already that
    file, and the parameter writer is still the one of before.  Each error
    carries the directory or the path that failed.  In every run the
    names, the tag, the output directory and the project are kept. *)
Theorem setFileWriters_partial_effects (s : State) :
  let o := opts s in
  let dir := OutputDir o in
  let made := fs_MkdirAll W (trace s) dir 493 in
  let tr1 := (trace s ++ [CallMkdirAll dir 493 None])%list in
  (∀ err, made = Some err →
     setFileWriters W s
     = (Some (wrapError ("create directory " +:+ dir +:+ ": ") err),
        logged s [CallMkdirAll dir 493 (Some err)]))
  ∧ (∀ err, made = None → fs_Create W tr1 (templatePath o) = Err err →
       setFileWriters W s
       = (Some (wrapError ("create file " +:+ templatePath o +:+ ": ") err),
          logged s [CallMkdirAll dir 493 None; CallCreate (templatePath o) (Err err)]))
  ∧ (∀ f err, made = None → fs_Create W tr1 (templatePath o) = Ok f →
       fs_Create W (tr1 ++ [CallCreate (templatePath o) (Ok f)]) (paramsPath o) = Err err →
       setFileWriters W s
       = (Some (wrapError ("create file " +:+ paramsPath o +:+ ": ") err),
          {| opts := setTemplateWriter (FileWriter f) o;
             trace := trace s ++ [CallMkdirAll dir 493 None;
                                  CallCreate (templatePath o) (Ok f);
                                  CallCreate (paramsPath o) (Err err)] |}))
  ∧ (let o' := opts (snd (setFileWriters W s)) in
     AppName o' = AppName o ∧ EnvName o' = EnvName o ∧ Tag o' = Tag o
     ∧ OutputDir o' = OutputDir o ∧ global o' = global o).
Proof.
  destruct s as [o tr]. cbn zeta. unfold logged. simpl opts. simpl trace.
  unfold templatePath, paramsPath.
  rewrite <- Sprintf_template_file, <- Sprintf_params_file.
  split; [|split; [|split]].
  - intros err Hmade. unfold setFileWriters. unfold_monad. simpl. rewrite Hmade.
    reflexivity.
  - intros err Hmade Hcreate. unfold setFileWriters. unfold_monad. simpl.
    rewrite Hmade. simpl. rewrite Hcreate. simpl. rewrite <- ?app_assoc. reflexivity.
  - intros f err Hmade Hcreate1 Hcreate2. unfold setFileWriters. unfold_monad. simpl.
    rewrite Hmade. simpl. rewrite Hcreate1. simpl. rewrite Hcreate2. simpl.
    rewrite <- ?app_assoc. reflexivity.
  - destruct (setFileWriters_cases W {| opts := o; trace := tr |}) as
      [(err & ->)|[(err & ->)|[(f & err & ->)|(f1 & f2 & ->)]]]; repeat split.
Qed.

Lemma renderParameters_error_text (c : cloudformation.LBFargateStackConfig) (err : error) :
  snd (renderParameters W c) = Some err → fst (renderParameters W c) = "".
Proof.
  unfold renderParameters, cloudformation.SerializedParameters.
  destruct (cloudformation.FindString _ _) as [content|]; [|reflexivity].
  destruct (cloudformation.template_Parse _ content) as [tpl|]; [|reflexivity].
  destruct (cloudformation.template_Execute _ tpl _) as [buf [e|]]; [reflexivity|discriminate].
Qed.

(** X12. [getTemplates] reads the manifest file of the application once
    and leaves the options as they are.  An error of the reading or of the
    decoding is returned as it is, with two empty strings, and so is an
    error of the first render.  If the template renders and the parameter
    document does not, the rendered template is returned together with the
    error. *)
Theorem getTemplates_outcomes (env : archer.Environment) (s : State) :
  let path := ws_ManifestFileName W (AppName (opts s)) in
  let read := ws_ReadManifestFile W (trace s) path in
  snd (getTemplates W env s) = logged s [CallReadManifestFile path read]
  ∧ (∀ err, read = Err err → fst (getTemplates W env s) = ("", "", Some err))
  ∧ (∀ raw err, read = Ok raw → UnmarshalApp W raw = Err err →
       fst (getTemplates W env s) = ("", "", Some err))
  ∧ (∀ raw mft,
       read = Ok raw → UnmarshalApp W raw = Ok (manifest.IsLBFargateManifest mft) →
       let stack := stackOf W (opts s) mft env in
       (∀ err, snd (renderTemplate W stack) = Some err →
          fst (getTemplates W env s) = ("", "", Some err))
       ∧ (∀ err, snd (renderTemplate W stack) = None →
            snd (renderParameters W stack) = Some err →
            fst (getTemplates W env s) = (fst (renderTemplate W stack), "", Some err))
       ∧ (snd (renderTemplate W stack) = None → snd (renderParameters W stack) = None →
            fst (getTemplates W env s)
            = (fst (renderTemplate W stack), fst (renderParameters W stack), None))).
Proof.
  cbn zeta. split; [apply getTemplates_state|].
  rewrite getTemplates_result. cbn zeta. split; [|split].
  - intros err ->. reflexivity.
  - intros raw err -> ->. reflexivity.
  - intros raw mft -> ->. split; [|split].
    + intros err ->. reflexivity.
    + intros err -> Hparams. rewrite Hparams, (renderParameters_error_text _ _ Hparams).
      reflexivity.
    + intros -> ->. reflexivity.
Qed.

(** Case analysis on a run of [Execute], down to the calls it made. *)
Ltac Execute_runs s :=
  let Hrun := fresh "Hrun" in
  let Hget := fresh "Hget" in
  let Hlookup := fresh "Hlookup" in
  let Hdir := fresh "Hdir" in
  let Hsetup := fresh "Hsetup" in
  let Hcase := fresh "Hcase" in
  let Hrw := fresh "Hrw" in
  destruct (Execute_stages W s) as
    [(?err & Hlookup & Hrun)
    |[(?env & ?err & ?s2 & Hlookup & Hdir & Hsetup & Hrun)
     |[(?env & ?s2 & Hlookup & Hdir & Hsetup & Hrun)
      |(?env & Hlookup & Hdir & Hrun)]]];
  [ | match type of Hsetup with
      | setFileWriters W ?st = _ =>
          destruct (setFileWriters_cases W st) as
            [(?err & Hcase)|[(?err & Hcase)|[(?f & ?err & Hcase)|(?f1 & ?f2 & Hcase)]]]
      end;
      rewrite Hcase in Hsetup; injection Hsetup as ? ?; subst
    | match type of Hsetup with
      | setFileWriters W ?st = _ =>
          destruct (setFileWriters_cases W st) as
            [(?err & Hcase)|[(?err & Hcase)|[(?f & ?err & Hcase)|(?f1 & ?f2 & Hcase)]]]
      end;
      rewrite Hcase in Hsetup; try discriminate; injection Hsetup as ?; subst;
      match type of Hrun with
      | _ = renderAndWrite W ?env ?st =>
          destruct (renderAndWrite_cases W env st) as
            [(?tpl & ?params & ?err & Hget & Hrw)
            |[(?tpl & ?params & ?n & ?err & Hget & Hrw)
             |(?tpl & ?params & ?n & ?r & Hget & ?Hdiscard & Hrw)]];
          rewrite Hrw in Hrun
      end
    | match type of Hrun with
      | _ = renderAndWrite W ?env ?st =>
          destruct (renderAndWrite_cases W env st) as
            [(?tpl & ?params & ?err & Hget & Hrw)
            |[(?tpl & ?params & ?n & ?err & Hget & Hrw)
             |(?tpl & ?params & ?n & ?r & Hget & ?Hdiscard & Hrw)]];
          rewrite Hrw in Hrun
      end ];
  rewrite Hrun; clear Hrun;
  unfold logged; cbn [fst snd opts trace];
  rewrite <- ?app_assoc; cbn [app].

(** X13. [Execute] does not undo the set-up of the file sinks: when the
    two files have been created and [getTemplates] then fails, [Execute]
    returns that error, both files exist, and nothing has been written to
    them. *)
Theorem Execute_keeps_files_of_a_failed_run (s : State) :
  let o := opts s in
  let project := projectName (global o) in
  let lookup := envStore_GetEnvironment W (trace s) project (EnvName o) in
  let s1 := logged s [CallGetEnvironment project (EnvName o) lookup] in
  ∀ env s2 err,
    OutputDir o ≠ "" → lookup = Ok env → setFileWriters W s1 = (None, s2) →
    snd (fst (getTemplates W env s2)) = Some err →
    fst (Execute W s) = Some err
    ∧ ∃ new,
        trace (snd (Execute W s)) = (trace s ++ new)%list
        ∧ createdFiles new = [templatePath o; paramsPath o]
        ∧ writes new = [].
Proof.
  cbn zeta. intros env s2 err Hne Hok Hfiles Hfail.
  Execute_runs s; try congruence;
    rewrite Hok in *;
    match goal with
    | H : Ok _ = Ok _ |- _ => injection H as <-
    end;
    rewrite Hcase in Hfiles; injection Hfiles as <-;
    rewrite Hget in Hfail; cbn [fst snd] in Hfail; try discriminate;
    injection Hfail as <-.
  split; [reflexivity|]. eexists. split; [reflexivity|]. split; reflexivity.
Qed.

(** X14. [Execute] keeps the names, the tag, the output directory and the
    project of the options; without an output directory it keeps the
    options altogether.  Its first call is the lookup of the environment
    of the options in their project, and it shows no prompt. *)
Theorem Execute_frame (s : State) :
  let o := opts s in
  let project := projectName (global o) in
  let lookup := envStore_GetEnvironment W (trace s) project (EnvName o) in
  ∃ rest o',
    snd (Execute W s)
    = {| opts := o';
         trace := trace s ++ CallGetEnvironment project (EnvName o) lookup :: rest |}
    ∧ AppName o' = AppName o ∧ EnvName o' = EnvName o ∧ Tag o' = Tag o
    ∧ OutputDir o' = OutputDir o ∧ global o' = global o
    ∧ (OutputDir o = "" → o' = o)
    ∧ prompts rest = [].
Proof.
  cbn zeta. destruct s as [o tr].
  Execute_runs ({| opts := o; trace := tr |});
    do 2 eexists; (split; [reflexivity|]);
    do 5 (split; [reflexivity|]);
    (split; [intros Hempty; try reflexivity; contradiction|reflexivity]).
Qed.

(** X15. With the sinks as the constructor sets them for the parameters
    (the discard sink) and no output directory, the write of the
    parameters cannot fail: [Execute] returns [nil] exactly when the
    lookup, [getTemplates] and the write of the template succeed. *)
Theorem Execute_succeeds_with_default_sinks (s : State) :
  let o := opts s in
  let project := projectName (global o) in
  let lookup := envStore_GetEnvironment W (trace s) project (EnvName o) in
  let s1 := logged s [CallGetEnvironment project (EnvName o) lookup] in
  OutputDir o = "" → paramsWriter o = Discard →
  (fst (Execute W s) = None
   ↔ ∃ env tpl params n,
       lookup = Ok env
       ∧ fst (getTemplates W env s1) = (tpl, params, None)
       ∧ fst (Write W (templateWriter o) tpl (snd (getTemplates W env s1))) = (n, None)).
Proof.
  cbn zeta. intros Hdir Hdiscard.
  rewrite (Execute_unfold W s). cbn zeta. rewrite Hdir. cbn [String.eqb].
  destruct (envStore_GetEnvironment W _ _ _) as [env|err] eqn:Hlookup.
  2:{ split; [discriminate|]. intros (? & ? & ? & ? & H & _). discriminate H. }
  unfold renderAndWrite, bind, getOpts, ret.
  pose proof (getTemplates_state W env (logged s [CallGetEnvironment
    (projectName (global (opts s))) (EnvName (opts s)) (Ok env)])) as Hstate.
  cbn zeta in Hstate.
  destruct (getTemplates W env _) as [[[tpl params] res] s3] eqn:Hget.
  cbn [fst snd] in *. subst s3.
  destruct res as [err|].
  { split; [discriminate|].
    intros (? & ? & ? & ? & [= <-] & H & _). rewrite Hget in H. discriminate H. }
  rewrite !opts_logged.
  destruct (Write W (templateWriter (opts s)) tpl _) as [[n res] s4] eqn:Hwrite.
  cbn [fst snd].
  destruct res as [err|].
  { split; [discriminate|].
    intros (? & ? & ? & ? & [= <-] & H1 & H).
    rewrite Hget in H1, H. cbn [fst snd] in H1, H. injection H1 as <- <-.
    rewrite ?opts_logged in H. rewrite Hwrite in H. discriminate H. }
  rewrite Hdiscard. unfold Write at 1, call. cbn [fst snd]. split.
  - intros _. exists env, tpl, params, n. rewrite Hget. cbn [fst snd].
    rewrite ?opts_logged. rewrite Hwrite. repeat split.
  - reflexivity.
Qed.

Lemma Validate_prompts (s : State) :
  ∃ new, snd (Validate W s) = logged s new ∧ prompts new = [].
Proof.
  destruct s as [o tr]. unfold logged. simpl opts. simpl trace.
  unfold Validate, listAppNames, GetEnvironment. unfold_monad. simpl.
  repeat (break_match; simpl); rewrite <- ?app_assoc;
    eexists; (split; [try reflexivity; rewrite app_nil_r; reflexivity|]); reflexivity.
Qed.

Lemma Ask_silent (s : State) :
  AppName (opts s) ≠ "" → EnvName (opts s) ≠ "" → Ask W s = (None, s).
Proof.
  destruct s as [o tr]. simpl. intros Happ Henv. apply String.eqb_neq in Happ, Henv.
  unfold Ask. unfold_monad. simpl. rewrite Happ. simpl. rewrite Henv. reflexivity.
Qed.

Lemma Execute_prompts (s : State) :
  ∃ new, trace (snd (Execute W s)) = (trace s ++ new)%list ∧ prompts new = [].
Proof.
  Execute_runs s; eexists; (split; [reflexivity|]); reflexivity.
Qed.

Lemma Sprintf_manual_tag (commitID : string) :
  fmt.Sprintf "manual-%s" [commitID] = "manual-" +:+ commitID.
Proof.
  transitivity ("manual-" +:+ (commitID +:+ "")); [reflexivity|].
  now rewrite append_nil_r.
Qed.

(** The options with which a run of the command starts, once the flags
    are parsed. *)
Lemma command_options (flags : Flags) (s : State) :
  let git := git_rev_parse W (trace s) in
  parseFlags flags (fst (NewPackageAppOpts W s))
  = {| AppName := default "" (flag_name flags);
       EnvName := default "" (flag_env flags);
       Tag := default (match git with
                       | Err _ => "latest"
                       | Ok commitID => "manual-" +:+ TrimSpace W commitID
                       end) (flag_tag flags);
       OutputDir := default "" (flag_output_dir flags);
       templateWriter := Stdout; paramsWriter := Discard;
       global := newGlobalOpts W |}.
Proof.
  cbn zeta. unfold NewPackageAppOpts. unfold_monad. simpl.
  destruct (git_rev_parse W (trace s)); [|reflexivity].
  cbn [fst parseFlags Tag]. rewrite Sprintf_manual_tag. reflexivity.
Qed.

(** A run of the command up to [Execute]: it fails, or it goes on with
    [Execute] in a state that has the tag of the start, and the options of
    the start altogether when both names were given; with both names given
    no prompt is shown. *)
Lemma command_prefix (flags : Flags) (s : State) :
  let o := parseFlags flags (fst (NewPackageAppOpts W s)) in
  ∃ pre,
    ((∃ err s', BuildAppPackageCmd W flags s = (Some err, s')
                ∧ trace s' = (trace s ++ pre)%list)
     ∨ (∃ s', BuildAppPackageCmd W flags s = Execute W s'
              ∧ trace s' = (trace s ++ pre)%list
              ∧ Tag (opts s') = Tag o
              ∧ (AppName o ≠ "" → EnvName o ≠ "" → opts s' = o)))
    ∧ (AppName o ≠ "" → EnvName o ≠ "" → prompts pre = []).
Proof.
  cbn zeta.
  destruct (NewPackageAppOpts_run W s) as (Hs0 & _).
  remember (BuildAppPackageCmd W flags s) as run eqn:Hrun.
  unfold BuildAppPackageCmd, bind in Hrun.
  destruct (NewPackageAppOpts W s) as [o0 s0]. cbn [fst snd] in *. subst s0.
  set (o := parseFlags flags o0) in *.
  unfold setOpts, orReturn, bind, ret in Hrun. cbn [opts trace logged] in Hrun.
  unfold PreRunE, bind, call, ret in Hrun. cbn [opts trace] in Hrun.
  set (git := git_rev_parse W (trace s)) in *.
  destruct (workspace_New W (trace s ++ [CallGitRevParse git])) as [err|] eqn:Hws.
  { exists [CallGitRevParse git; CallWorkspaceNew (Some err)].
    split; [|reflexivity]. left. subst run. do 2 eexists. split; [reflexivity|].
    cbn [trace]. rewrite <- app_assoc. reflexivity. }
  destruct (ssm_NewStore W _) as [err|] eqn:Hstore.
  { exists (opening git None (Some err)).
    split; [|reflexivity]. left. subst run. do 2 eexists. split; [reflexivity|].
    unfold opening. cbn [trace]. rewrite <- !app_assoc. reflexivity. }
  match type of Hrun with
  | context [Validate W ?st] =>
      destruct (Validate_prompts st) as (new1 & Hs1 & Hp1);
      destruct (Validate W st) as [res1 s1]
  end.
  cbn [fst snd opts trace logged] in *. subst s1.
  destruct res1 as [err|].
  { exists (opening git None None ++ new1)%list.
    split; [|intros _ _; rewrite prompts_app, Hp1; reflexivity].
    left. subst run. do 2 eexists. split; [reflexivity|].
    unfold logged, opening. cbn [trace]. rewrite <- !app_assoc. reflexivity. }
  unfold RunE, orReturn, bind, ret in Hrun.
  match type of Hrun with
  | context [Ask W ?st] =>
      pose proof (Ask_silent st) as Hsilent;
      destruct (Ask_run W st) as
        (new2 & o2 & Hs2 & _ & _ & _ & _ & _ & Htag & _);
      destruct (Ask W st) as [res2 s2]
  end.
  cbn [fst snd opts trace logged] in *. subst s2.
  assert (Hboth : AppName o ≠ "" → EnvName o ≠ "" → res2 = None ∧ o2 = o ∧ new2 = []).
  { intros Happ Henv. specialize (Hsilent Happ Henv).
    injection Hsilent as -> -> Htr. repeat split.
    apply (f_equal length) in Htr. rewrite length_app in Htr.
    destruct new2; [reflexivity|simpl in Htr; lia]. }
  destruct res2 as [err|].
  { exists (opening git None None ++ new1 ++ new2)%list. split.
    - left. subst run. do 2 eexists. split; [reflexivity|].
      unfold opening. cbn [trace]. rewrite <- !app_assoc. reflexivity.
    - intros Happ Henv. destruct (Hboth Happ Henv) as (H & _). discriminate H. }
  match type of Hrun with
  | context [Validate W ?st] =>
      destruct (Validate_prompts st) as (new3 & Hs3 & Hp3);
      destruct (Validate W st) as [res3 s3]
  end.
  cbn [fst snd opts trace logged] in *. subst s3.
  exists (opening git None None ++ new1 ++ new2 ++ new3)%list. split.
  - destruct res3 as [err|].
    + left. subst run. do 2 eexists. split; [reflexivity|].
      unfold logged, opening. cbn [trace]. rewrite <- !app_assoc. reflexivity.
    + right. subst run. eexists. split; [reflexivity|].
      unfold logged, opening. cbn [trace opts]. rewrite <- !app_assoc.
      split; [reflexivity|]. split; [exact Htag|].
      intros Happ Henv. now destruct (Hboth Happ Henv) as (_ & -> & _).
  - intros Happ Henv. destruct (Hboth Happ Henv) as (_ & _ & ->).
    rewrite !prompts_app, Hp1, Hp3. reflexivity.
Qed.

(** X16. The command validates before it asks: once the workspace and the
    store are set up, a run outside any project fails with the no-project
    error, and a run whose flag names an application that the workspace
    does not list fails with the unknown-application error, in both cases
    before any prompt, lookup or write. *)
Theorem command_validates_before_asking (flags : Flags) (s : State) :
  let git := CallGitRevParse (git_rev_parse W (trace s)) in
  let o := parseFlags flags (fst (NewPackageAppOpts W s)) in
  let started := (trace s ++ [git; CallWorkspaceNew None; CallNewStore None])%list in
  workspace_New W (trace s ++ [git]) = None →
  ssm_NewStore W (trace s ++ [git; CallWorkspaceNew None]) = None →
  (projectName (newGlobalOpts W) = "" →
     BuildAppPackageCmd W flags s
     = (Some errNoProjectInWorkspace, {| opts := o; trace := started |}))
  ∧ (∀ app names,
       projectName (newGlobalOpts W) ≠ "" → flag_name flags = Some app → app ≠ "" →
       ws_AppNames W started = Ok names → app ∉ names →
       BuildAppPackageCmd W flags s
       = (Some (unknownApplication app),
          {| opts := o; trace := started ++ [CallAppNames (Ok names)] |})).
Proof.
  cbn zeta. intros Hws Hstore.
  pose proof (command_options flags s) as Ho. cbn zeta in Ho.
  destruct (NewPackageAppOpts_run W s) as (Hs0 & _).
  unfold BuildAppPackageCmd, bind.
  destruct (NewPackageAppOpts W s) as [o0 s0]. cbn [fst snd] in *. subst s0.
  unfold PreRunE, setOpts, orReturn, bind, ret, call, logged. cbn [opts trace fst snd].
  rewrite Hws. cbv beta iota. cbn [opts trace].
  rewrite <- !app_assoc. cbn [app]. rewrite Hstore. cbv beta iota.
  set (o := parseFlags flags o0) in *.
  assert (Hglobal : projectName (global o) = projectName (newGlobalOpts W))
    by now rewrite Ho.
  assert (Hname : AppName o = default "" (flag_name flags)) by now rewrite Ho.
  clearbody o. clear Ho.
  unfold Validate, listAppNames. unfold_monad. cbv beta iota. cbn [opts trace].
  rewrite Hglobal. split.
  - intros ->. reflexivity.
  - intros app names Hp Hflag Happ Hlist Habsent.
    apply String.eqb_neq in Hp, Happ. rewrite Hp. cbv beta iota. cbn [opts trace].
    rewrite ?Hname, ?Hflag. change (default "" (Some app)) with app.
    rewrite Happ. cbv beta iota. cbn [negb opts trace]. rewrite Hlist.
    cbv beta iota. cbn [opts trace].
    destruct (contains app names) eqn:Hc.
    { apply contains_elem_of in Hc. contradiction. }
    cbn [negb]. rewrite Sprintf_unknown_application. reflexivity.
Qed.

(** X17. What a successful run of [Execute] writes, and where: the
    template writer receives the render of the template, and then the
    parameter writer the render of the parameter document, both for the
    stack made of the manifest that was read and decoded, the environment
    that the store returned, and the image tag of the options.  Without an
    output directory the two writers are those of the options; with one
    they are the file created at the path of the template and the file
    created at the path of the parameters. *)
Theorem Execute_writes_the_renders (s : State) :
  let o := opts s in
  let o' := opts (snd (Execute W s)) in
  let project := projectName (global o) in
  let lookup := envStore_GetEnvironment W (trace s) project (EnvName o) in
  fst (Execute W s) = None →
  ∃ env raw mft new n1 n2,
    lookup = Ok env
    ∧ UnmarshalApp W raw = Ok (manifest.IsLBFargateManifest mft)
    ∧ trace (snd (Execute W s)) = (trace s ++ new)%list
    ∧ CallReadManifestFile (ws_ManifestFileName W (AppName o)) (Ok raw) ∈ new
    ∧ (let stack := stackOf W o mft env in
       writes new = [CallWrite (templateWriter o') (fst (renderTemplate W stack)) (n1, None);
                     CallWrite (paramsWriter o') (fst (renderParameters W stack))
                       (n2, None)])
    ∧ (OutputDir o = "" →
         templateWriter o' = templateWriter o ∧ paramsWriter o' = paramsWriter o
         ∧ fsCalls new = [])
    ∧ (OutputDir o ≠ "" →
         ∃ templateFile paramsFile,
           templateWriter o' = FileWriter templateFile
           ∧ paramsWriter o' = FileWriter paramsFile
           ∧ fsCalls new = [CallMkdirAll (OutputDir o) 493 None;
                            CallCreate (templatePath o) (Ok templateFile);
                            CallCreate (paramsPath o) (Ok paramsFile)]).
Proof.
  cbn zeta. destruct s as [o tr]. simpl opts. simpl trace.
  assert (Hrender : ∀ env st tpl params,
            Tag (opts st) = Tag o → AppName (opts st) = AppName o →
            fst (getTemplates W env st) = (tpl, params, None) →
            ∃ raw mft,
              ws_ReadManifestFile W (trace st) (ws_ManifestFileName W (AppName o)) = Ok raw
              ∧ UnmarshalApp W raw = Ok (manifest.IsLBFargateManifest mft)
              ∧ tpl = fst (renderTemplate W (stackOf W o mft env))
              ∧ params = fst (renderParameters W (stackOf W o mft env))).
  { intros env st tpl params Htag Happ Hget.
    rewrite getTemplates_result in Hget. cbn zeta in Hget. rewrite Happ in Hget.
    destruct (ws_ReadManifestFile W _ _) as [raw|]; [|discriminate Hget].
    destruct (UnmarshalApp W raw) as [[mft|t]|] eqn:Hdecode; try discriminate Hget.
    assert (Hstack : stackOf W (opts st) mft env = stackOf W o mft env)
      by (unfold stackOf; now rewrite Htag).
    rewrite Hstack in Hget.
    destruct (snd (renderTemplate W _)); [discriminate Hget|].
    injection Hget as <- <- _. exists raw, mft. repeat split. exact Hdecode. }
  Execute_runs ({| opts := o; trace := tr |}); intros Hnil; try discriminate Hnil.
  - destruct r as [n2 res]. cbn [snd] in Hnil. subst res.
    match type of Hget with
    | fst (getTemplates W ?e ?st) = _ =>
        destruct (Hrender e st _ _ eq_refl eq_refl Hget)
          as (raw & mft & Hread & Hdecode & -> & ->)
    end.
    unfold logged in Hread. cbn [trace opts] in Hread.
    rewrite <- ?app_assoc in Hread. cbn [app] in Hread.
    exists env, raw, mft. eexists. do 2 eexists.
    split; [exact Hlookup|]. split; [exact Hdecode|]. split; [reflexivity|].
    split; [|split; [reflexivity|split]].
    + cbn [AppName setParamsWriter setTemplateWriter]. rewrite Hread.
      do 4 apply list_elem_of_further. apply list_elem_of_here.
    + intros Hempty. contradiction.
    + intros _. exists f1, f2. split; [reflexivity|]. split; reflexivity.
  - destruct r as [n2 res]. cbn [snd] in Hnil. subst res.
    match type of Hget with
    | fst (getTemplates W ?e ?st) = _ =>
        destruct (Hrender e st _ _ eq_refl eq_refl Hget)
          as (raw & mft & Hread & Hdecode & -> & ->)
    end.
    unfold logged in Hread. cbn [trace opts] in Hread.
    exists env, raw, mft. eexists. do 2 eexists.
    split; [exact Hlookup|]. split; [exact Hdecode|]. split; [reflexivity|].
    split; [|split; [reflexivity|split]].
    + rewrite Hread. apply list_elem_of_further. apply list_elem_of_here.
    + intros _. split; [reflexivity|]. split; reflexivity.
    + intros Hne. contradiction.
Qed.

(** X18. A run of the command stops at the first collaborator that cannot
    be set up: if the workspace cannot be opened, the error is returned
    with its context and the store is not contacted; if the store cannot
    be contacted, that error is returned with its context; in both cases
    nothing is validated, asked or looked up. *)
Theorem command_startup_errors (flags : Flags) (s : State) :
  let git := CallGitRevParse (git_rev_parse W (trace s)) in
  let o := parseFlags flags (fst (NewPackageAppOpts W s)) in
  let opened := workspace_New W (trace s ++ [git]) in
  (∀ err, opened = Some err →
     BuildAppPackageCmd W flags s
     = (Some (wrapError "new workspace: " err),
        {| opts := o; trace := trace s ++ [git; CallWorkspaceNew (Some err)] |}))
  ∧ (∀ err, opened = None →
       ssm_NewStore W (trace s ++ [git; CallWorkspaceNew None]) = Some err →
       BuildAppPackageCmd W flags s
       = (Some (wrapError "couldn't connect to application datastore: " err),
          {| opts := o;
             trace := trace s ++ [git; CallWorkspaceNew None; CallNewStore (Some err)] |})).
Proof.
  cbn zeta.
  destruct (NewPackageAppOpts_run W s) as (Hs0 & _).
  unfold BuildAppPackageCmd, bind.
  destruct (NewPackageAppOpts W s) as [o0 s0]. cbn [fst snd] in *. subst s0.
  unfold PreRunE, setOpts, orReturn, bind, ret, call, logged. cbn [opts trace fst snd].
  split.
  - intros err ->. rewrite <- app_assoc. reflexivity.
  - intros err Hws Hstore. rewrite Hws. cbn [opts trace].
    rewrite <- !app_assoc. cbn [app]. rewrite Hstore. reflexivity.
Qed.

(** X19. A run of the command with both the application and the
    environment given by flags shows no prompt, whatever the outcome. *)
Theorem command_with_both_names_shows_no_prompt
    (flags : Flags) (s : State) (app env : string) :
  flag_name flags = Some app → app ≠ "" → flag_env flags = Some env → env ≠ "" →
  ∃ new,
    trace (snd (BuildAppPackageCmd W flags s)) = (trace s ++ new)%list
    ∧ prompts new = [].
Proof.
  intros Hname Happ Henv Hne.
  destruct (command_prefix flags s) as (pre & Hcases & Hsilent). cbn zeta in *.
  rewrite command_options in Hsilent. cbn [AppName EnvName] in Hsilent.
  rewrite Hname, Henv in Hsilent. specialize (Hsilent Happ Hne).
  destruct Hcases as [(err & s' & -> & Htr)|(s' & -> & Htr & _)].
  - exists pre. split; [exact Htr|exact Hsilent].
  - destruct (Execute_prompts s') as (new & Hnew & Hprompts).
    exists (pre ++ new)%list. rewrite Hnew, Htr, <- app_assoc, prompts_app, Hsilent, Hprompts.
    split; reflexivity.
Qed.

(** X20. A run of the command that succeeds has run [Execute] with the
    image tag of the flag [--tag] if it was given, and otherwise with
    [manual-] followed by the trimmed output of git, or with [latest] if
    git failed. *)
Theorem command_image_tag (flags : Flags) (s : State) :
  let git := git_rev_parse W (trace s) in
  let tag := default (match git with
                      | Err _ => "latest"
                      | Ok commitID => "manual-" +:+ TrimSpace W commitID
                      end) (flag_tag flags) in
  fst (BuildAppPackageCmd W flags s) = None →
  ∃ s', BuildAppPackageCmd W flags s = Execute W s'
        ∧ Tag (opts s') = tag
        ∧ Tag (opts (snd (Execute W s'))) = tag.
Proof.
  cbn zeta. intros Hnil.
  destruct (command_prefix flags s) as (pre & Hcases & _). cbn zeta in *.
  rewrite command_options in Hcases. cbn [Tag] in Hcases.
  destruct Hcases as [(err & s' & Hrun & _)|(s' & Hrun & _ & Htag & _)].
  { rewrite Hrun in Hnil. discriminate Hnil. }
  exists s'. split; [exact Hrun|]. split; [exact Htag|].
  rewrite <- Htag. clear. destruct s' as [o tr].
  Execute_runs ({| opts := o; trace := tr |}); reflexivity.
Qed.

End MoreCommandProperties.

(** ** The two files of an output directory *)

Lemma strings_Join_snoc (out : list string) (a b : string) :
  strings.Join (out ++ [a]) "/" = strings.Join (out ++ [b]) "/" → a = b.
Proof.
  induction out as [|e out IH]; [intros H; exact H|].
  assert (Hcons : ∀ x, strings.Join ((e :: out) ++ [x]) "/"
                       = e +:+ "/" +:+ strings.Join (out ++ [x]) "/").
  { intros x. simpl. destruct (out ++ [x])%list eqn:Hx; [|reflexivity].
    destruct out; discriminate. }
  rewrite !Hcons. intros H. apply IH.
  apply (inj (String.app e)) in H. now injection H.
Qed.

Lemma fromElements_snoc (rooted : bool) (out : list string) (a b : string) :
  filepath.fromElements rooted (out ++ [a]) = filepath.fromElements rooted (out ++ [b]) →
  a = b.
Proof.
  unfold filepath.fromElements. destruct rooted.
  - intros [= H]. eapply strings_Join_snoc, H.
  - destruct (out ++ [a])%list eqn:Ha; [destruct out; discriminate|].
    destruct (out ++ [b])%list eqn:Hb; [destruct out; discriminate|].
    rewrite <- Ha, <- Hb. apply strings_Join_snoc.
Qed.

(** X21. When neither the application name nor the environment name
    contains a separator, the template and the parameter document of an
    output directory go to two different paths. *)
Theorem output_files_are_distinct (o : cli.PackageAppOpts) :
  cli.OutputDir o ≠ "" →
  noSeparator (cli.AppName o) = true → noSeparator (cli.EnvName o) = true →
  templatePath o ≠ paramsPath o.
Proof.
  intros Hdir Happ Henv Heq. unfold templatePath, paramsPath in Heq.
  rewrite !Join_file_name in Heq; try assumption.
  - apply fromElements_snoc in Heq.
    apply (inj (String.app (cli.AppName o))) in Heq. discriminate Heq.
  - rewrite !noSeparator_app, Happ, Henv. reflexivity.
  - rewrite !length_append. simpl. lia.
  - rewrite noSeparator_app, Happ. reflexivity.
  - rewrite length_append. simpl. lia.
Qed.

(** ** The function [contains] *)

(** X22. [contains] tells whether the string is an item of the list: it
    returns [true] exactly when some item equals the string, so [false]
    on the empty list, and over a concatenation it is the disjunction of
    the two answers. *)
Theorem contains_is_membership (s : string) (items more : list string) :
  (cli.contains s items = true ↔ s ∈ items)
  ∧ (cli.contains s items = false ↔ s ∉ items)
  ∧ cli.contains s [] = false
  ∧ cli.contains s (items ++ more) = cli.contains s items || cli.contains s more.
Proof.
  split; [apply contains_elem_of|]. split; [|split; [reflexivity|]].
  - rewrite <- contains_elem_of. destruct (cli.contains s items); split; congruence.
  - induction items as [|item items IH]; [reflexivity|].
    simpl. destruct (String.eqb s item); [reflexivity|exact IH].
Qed.

(** ** The further properties at the scenario and its variants *)

Lemma Template_outcomes_witness :
  cloudformation.Template cloudformation.ecrURLFormatString_spec scenario.overrideAll
    scenario.engine variants.emptyStack
  = ("", Some (ErrTemplateNotFound "lb-fargate-service/cf.yml"
                 (errorString "file does not exist"))).
Proof.
  destruct (Template_outcomes cloudformation.ecrURLFormatString_spec scenario.overrideAll
              scenario.engine variants.emptyStack) as (_ & _ & Hmissing & _).
  apply Hmissing. reflexivity.
Defined.

Lemma SerializedParameters_outcomes_witness :
  cloudformation.SerializedParameters cloudformation.ecrURLFormatString_spec
    scenario.overrideAll scenario.engine variants.emptyStack
  = ("", Some (ErrTemplateNotFound "lb-fargate-service/params.json"
                 (errorString "file does not exist"))).
Proof.
  destruct (SerializedParameters_outcomes cloudformation.ecrURLFormatString_spec
              scenario.overrideAll scenario.engine variants.emptyStack)
    as (_ & _ & Hmissing & _).
  apply Hmissing. reflexivity.
Defined.

Lemma Validate_succeeds_iff_witness :
  fst (cli.Validate scenario.world scenario.ready) = None.
Proof.
  apply (Validate_succeeds_iff scenario.world scenario.ready).
  split; [discriminate|]. split.
  - right. exists ["backend"; "frontend"]. split; [reflexivity|].
    apply list_elem_of_In. simpl. auto.
  - right. exists scenario.test. reflexivity.
Defined.

Lemma Validate_calls_witness :
  cli.Validate variants.unlistableWorld scenario.ready
  = (Some (wrapError "list applications in workspace: " (errorString "permission denied")),
     logged scenario.ready [cli.CallAppNames (Err (errorString "permission denied"))]).
Proof.
  destruct (Validate_calls variants.unlistableWorld scenario.ready) as (_ & Hfail).
  apply Hfail; [discriminate|discriminate|reflexivity].
Defined.

Lemma Ask_only_fills_missing_names_witness :
  fst (cli.Ask scenario.world scenario.ready) = None.
Proof.
  destruct (Ask_only_fills_missing_names scenario.world scenario.ready)
    as (new & o' & _ & _ & _ & _ & _ & Hboth).
  apply Hboth; discriminate.
Defined.

Lemma Ask_no_applications_witness :
  cli.Ask variants.emptyWorkspaceWorld variants.noApplicationName
  = (Some (errorString
             "there are no applications in the workspace, run `archer init` first"),
     logged variants.noApplicationName [cli.CallAppNames (Ok [])]).
Proof.
  apply (Ask_no_applications variants.emptyWorkspaceWorld variants.noApplicationName);
    reflexivity.
Defined.

Lemma Ask_application_prompt_witness :
  cli.Ask scenario.world scenario.start
  = (None,
     {| cli.opts := cli.setEnvName "test" (cli.setAppName "backend" scenario.emptyOpts);
        cli.trace :=
          [cli.CallAppNames (Ok ["backend"; "frontend"]);
           cli.CallSelectOne cli.appPackageAppNamePrompt "" ["backend"; "frontend"]
             (Ok "backend");
           cli.CallListEnvironments "demo" (Ok [scenario.test]);
           cli.CallSelectOne cli.appPackageEnvNamePrompt "" ["test"] (Ok "test")] |}).
Proof.
  destruct (Ask_application_prompt scenario.world scenario.start eq_refl)
    as (Hlisted & _).
  destruct (Hlisted ["backend"; "frontend"] eq_refl ltac:(discriminate)) as (_ & Hanswer).
  destruct (Hanswer "backend" eq_refl) as (_ & _ & _ & Henvs).
  destruct (Henvs [scenario.test] eq_refl eq_refl) as (_ & Hboth).
  exact (Hboth "test" eq_refl).
Defined.

Lemma Ask_environment_prompt_witness :
  fst (cli.Ask scenario.world variants.noEnvironmentName) = None
  ∧ cli.EnvName (cli.opts (snd (cli.Ask scenario.world variants.noEnvironmentName)))
    = "test".
Proof.
  destruct (Ask_environment_prompt scenario.world variants.noEnvironmentName
              ltac:(discriminate) eq_refl) as (Hlisted & _).
  destruct (Hlisted [scenario.test] eq_refl) as (_ & Hanswer).
  rewrite (Hanswer "test" eq_refl). split; reflexivity.
Defined.

Lemma setFileWriters_partial_effects_witness :
  cli.setFileWriters variants.readOnlyWorld scenario.ready
  = (Some (wrapError "create directory ./out: " (errorString "read-only file system")),
     logged scenario.ready
       [cli.CallMkdirAll "./out" 493 (Some (errorString "read-only file system"))]).
Proof.
  destruct (setFileWriters_partial_effects variants.readOnlyWorld scenario.ready)
    as (Hmkdir & _).
  apply (Hmkdir (errorString "read-only file system")). reflexivity.
Defined.

Lemma getTemplates_outcomes_witness :
  fst (cli.getTemplates variants.brokenWorld scenario.test scenario.ready)
  = ("", "", Some (wrapError "execute CloudFormation template for Load Balanced Web App: "
                     (errorString "can't evaluate field Missing"))).
Proof.
  destruct (getTemplates_outcomes variants.brokenWorld scenario.test scenario.ready)
    as (_ & _ & _ & Hrender).
  destruct (Hrender "name: frontend" scenario.frontend eq_refl eq_refl) as (Hfirst & _).
  apply Hfirst. reflexivity.
Defined.

Lemma Execute_keeps_files_of_a_failed_run_witness :
  ∃ new,
    cli.trace (snd (cli.Execute variants.brokenWorld scenario.ready))
    = (cli.trace scenario.ready ++ new)%list
    ∧ createdFiles new = [templatePath scenario.options; paramsPath scenario.options]
    ∧ writes new = [].
Proof.
  pose (s1 := logged scenario.ready [cli.CallGetEnvironment "demo" "test" (Ok scenario.test)]).
  destruct (Execute_keeps_files_of_a_failed_run variants.brokenWorld scenario.ready
              scenario.test (snd (cli.setFileWriters variants.brokenWorld s1))
              (wrapError "execute CloudFormation template for Load Balanced Web App: "
                 (errorString "can't evaluate field Missing")))
    as (_ & Hfiles); [discriminate|reflexivity|reflexivity|reflexivity|].
  exact Hfiles.
Defined.

Lemma Execute_succeeds_with_default_sinks_witness :
  fst (cli.Execute scenario.world variants.toStandardOutput) = None.
Proof.
  apply (Execute_succeeds_with_default_sinks scenario.world variants.toStandardOutput
           eq_refl eq_refl).
  exists scenario.test,
    "Resources: 123.dkr.ecr.us-east-1.amazonaws.com/demo/test/frontend:latest",
    "Parameters: 123.dkr.ecr.us-east-1.amazonaws.com/demo/test/frontend:latest", 72%Z.
  repeat split.
Defined.

Lemma command_startup_errors_witness :
  fst (cli.BuildAppPackageCmd variants.noWorkspaceWorld scenario.flags scenario.start)
  = Some (wrapError "new workspace: " (errorString "workspace not found")).
Proof.
  destruct (command_startup_errors variants.noWorkspaceWorld scenario.flags scenario.start)
    as (Hopen & _).
  rewrite (Hopen (errorString "workspace not found") eq_refl). reflexivity.
Defined.

Lemma command_with_both_names_shows_no_prompt_witness :
  ∃ new,
    cli.trace (snd (cli.BuildAppPackageCmd scenario.world scenario.flags scenario.start))
    = (cli.trace scenario.start ++ new)%list
    ∧ prompts new = [].
Proof.
  apply (command_with_both_names_shows_no_prompt scenario.world scenario.flags
           scenario.start "frontend" "test"); (reflexivity || discriminate).
Defined.

Lemma command_image_tag_witness :
  ∃ s', cli.BuildAppPackageCmd variants.committedWorld scenario.flags scenario.start
        = cli.Execute variants.committedWorld s'
        ∧ cli.Tag (cli.opts s') = "manual-1a2b3c4"
        ∧ cli.Tag (cli.opts (snd (cli.Execute variants.committedWorld s'))) = "manual-1a2b3c4".
Proof.
  apply (command_image_tag variants.committedWorld scenario.flags scenario.start).
  reflexivity.
Defined.

Lemma output_files_are_distinct_witness :
  templatePath scenario.options ≠ paramsPath scenario.options.
Proof.
  apply (output_files_are_distinct scenario.options); [discriminate|reflexivity|reflexivity].
Defined.

Lemma contains_is_membership_witness :
  cli.contains "frontend" ["backend"; "frontend"] = true.
Proof.
  destruct (contains_is_membership "frontend" ["backend"; "frontend"] []) as (Hiff & _).
  apply Hiff. apply list_elem_of_In. simpl. auto.
Defined.

Lemma command_validates_before_asking_witness :
  fst (cli.BuildAppPackageCmd scenario.world variants.unlistedFlags scenario.start)
  = Some (unknownApplication "worker").
Proof.
  destruct (command_validates_before_asking scenario.world variants.unlistedFlags
              scenario.start eq_refl eq_refl) as (_ & Hunknown).
  rewrite (Hunknown "worker" ["backend"; "frontend"]); [reflexivity|discriminate|
    reflexivity|discriminate|reflexivity|].
  intros Hin. apply list_elem_of_In in Hin. simpl in Hin.
  repeat destruct Hin as [Hin|Hin]; try discriminate Hin. exact Hin.
Defined.

Lemma Execute_writes_the_renders_witness :
  ∃ new n1 n2,
    cli.trace (snd (cli.Execute scenario.world scenario.ready))
    = (cli.trace scenario.ready ++ new)%list
    ∧ fsCalls new
      = [cli.CallMkdirAll "./out" 493 None;
         cli.CallCreate "out/frontend.stack.yml" (Ok (cli.FileHandle 2));
         cli.CallCreate "out/frontend-test.params.json" (Ok (cli.FileHandle 3))]
    ∧ writes new
      = [cli.CallWrite (cli.FileWriter (cli.FileHandle 2))
           (fst (renderTemplate scenario.world scenario.stack)) (n1, None);
         cli.CallWrite (cli.FileWriter (cli.FileHandle 3))
           (fst (renderParameters scenario.world scenario.stack)) (n2, None)].
Proof.
  destruct (Execute_writes_the_renders scenario.world scenario.ready eq_refl)
    as (env & raw & mft & new & n1 & n2 & Hlookup & Hdecode & Htrace & _ & Hwrites
        & _ & Hfiles).
  injection Hlookup as <-. injection Hdecode as <-.
  destruct (Hfiles ltac:(discriminate)) as (f1 & f2 & Htw & Hpw & Hfs).
  exists new, n1, n2. split; [exact Htrace|].
  injection Htw as <-. injection Hpw as <-.
  split; [exact Hfs|exact Hwrites].
Defined.

Lemma Execute_frame_witness :
  cli.opts (snd (cli.Execute scenario.world variants.toStandardOutput))
  = cli.opts variants.toStandardOutput.
Proof.
  destruct (Execute_frame scenario.world variants.toStandardOutput)
    as (rest & o' & Hstate & _ & _ & _ & _ & _ & Hsame & _).
  rewrite Hstate. apply Hsame. reflexivity.
Defined.
